(** * WebchatUI: lifecycle, title indicator and render logic

    Shallow embedding of [src/webchat-ui/components/WebchatUI.tsx]: the
    [WebchatUI] React component, its derived state, the "unread messages"
    title indicator and the tree produced by [render].

    Conventions of the embedding:
    - a JavaScript property access on [undefined] raises [TypeError]; methods
      that can raise return a [Result];
    - an optional property is an [option]; JavaScript truthiness is written
      out by [truthy] / [truthyStr];
    - an array compared with [!==] carries its reference next to its items;
    - [this.setState] merges a partial state into the component state; no
      method of the file reads [this.state] after a [setState], so the merge
      is applied at the call;
    - the browser is the record [Window]: the document title, the live
      interval handles and the notification sounds played so far. *)

From Stdlib Require Import String List Bool Arith PArith Lia.
From Stdlib Require Import Numbers.DecimalString.
Import ListNotations.
Local Open Scope string_scope.
Set Warnings "-register-all".

(** ** JavaScript values and exceptions *)

Inductive Exn : Type := TypeError.

Inductive Result (A : Type) : Type :=
| Ok (a : A)
| Throw (e : Exn).
Arguments Ok {A} a.
Arguments Throw {A} e.

Definition bind {A B : Type} (r : Result A) (k : A -> Result B) : Result B :=
  match r with
  | Ok a => k a
  | Throw e => Throw e
  end.

Notation "'let*' x ':=' r 'in' k" := (bind r (fun x => k))
  (at level 10, x name, r at level 100, k at level 200).

(** [o.f] where [o] may be [undefined]. *)
Definition member {A B : Type} (o : option A) (f : A -> B) : Result B :=
  match o with
  | Some a => Ok (f a)
  | None => Throw TypeError
  end.

(** Truthiness of an optional boolean property. *)
Definition truthy (b : option bool) : bool :=
  match b with
  | Some true => true
  | _ => false
  end.

(** Truthiness of a string: every string except the empty one. *)
Definition truthyStr (s : string) : bool :=
  match s with
  | EmptyString => false
  | String _ _ => true
  end.

(** [a !== b] on optional booleans and optional strings. *)
Definition strictNeqBool (a b : option bool) : bool :=
  match a, b with
  | Some x, Some y => negb (Bool.eqb x y)
  | None, None => false
  | _, _ => true
  end.

Definition strictNeqStr (a b : option string) : bool :=
  match a, b with
  | Some x, Some y => negb (String.eqb x y)
  | None, None => false
  | _, _ => true
  end.

(** A value interpolated in a template literal. *)
Definition templateNat (n : nat) : string :=
  NilZero.string_of_uint (Nat.to_uint n).

Definition templateOptStr (s : option string) : string :=
  match s with
  | Some s => s
  | None => "undefined"
  end.

(** An array value: [ref] is the identity compared by [!==], [items] its
    contents. *)
Record JSArray (A : Type) : Type := mkArray {
  ref : nat;
  items : list A
}.
Arguments mkArray {A} ref items.
Arguments ref {A} _.
Arguments items {A} _.

Definition arrayNeq {A : Type} (a b : JSArray A) : bool :=
  negb (Nat.eqb (ref a) (ref b)).

(** ** Collaborators imported by the component

    The message type, the theme factory, the text extraction helper and the
    two built-in plugins live in other modules; the component only calls
    them. *)

Class Collaborators : Type := {
  IMessage : Type;
  MessagePlugin : Type;
  InputPlugin : Type;
  IWebchatTheme : Type;
  (** [createWebchatTheme()] is [createWebchatTheme None];
      [createWebchatTheme({ primaryColor: c })] is
      [createWebchatTheme (Some c)]. *)
  createWebchatTheme : option (option string) -> IWebchatTheme;
  primaryColor : IWebchatTheme -> string;
  getTextFromMessage : IMessage -> string;
  regularMessagePlugin : MessagePlugin;
  textInputPlugin : InputPlugin
}.

(** ** Configuration *)

(** Modelled from the spec: the declaration of [IWebchatConfig]
    (common/interfaces/webchat-config) is not part of the sources. The spec
    lists [{ active, settings: { colorScheme?, title?, ... } }] with every
    setting optional, and speaks of configs whose settings block is absent;
    nothing at run time excludes such a config, and
    [getDerivedStateFromProps] tests for it, so [settings] is optional
    too. *)
Record IWebchatSettings : Type := {
  colorScheme : option string;
  title : option string;
  headerLogoUrl : option string;
  disableBranding : option bool;
  disableToggleButton : option bool;
  enableConnectionStatusIndicator : option bool;
  enableUnreadMessageTitleIndicator : option bool;
  enableUnreadMessagePreview : option bool;
  enableUnreadMessageSound : option bool;
  enableUnreadMessageBadge : option bool;
  unreadMessageTitleText : option string
}.

(** Modelled from the spec: see [IWebchatSettings]. *)
Record IWebchatConfig : Type := {
  active : bool;
  settings : option IWebchatSettings
}.

Section Model.

Context {env : Collaborators}.

(** ** Props and state *)

(** The callbacks of the props ([onSendMessage], [onToggle], ...) and the
    spread HTML props are handed through to children unchanged and are left
    out. [messages] is only mapped over, so its identity is not kept. *)
Record WebchatUIProps : Type := {
  messages : list IMessage;
  unseenMessages : JSArray IMessage;
  fullscreenMessage : option IMessage;
  config : IWebchatConfig;
  typingIndicator : string;
  open : bool;
  messagePlugins : option (list MessagePlugin);
  inputPlugins : list InputPlugin;
  inputMode : string;
  connected : bool;
  reconnectionLimit : bool
}.

Record WebchatUIState : Type := {
  theme : IWebchatTheme;
  stMessagePlugins : list MessagePlugin;
  stInputPlugins : list InputPlugin;
  hadConnection : bool;
  lastUnseenMessageText : string
}.

Inductive TitleType : Type := original | unread.

(** The component instance: [this]. *)
Record WebchatUI : Type := {
  props : WebchatUIProps;
  state : WebchatUIState;
  unreadTitleIndicatorInterval : option positive;
  originalTitle : string;
  titleType : TitleType
}.

(** The browser. [setInterval] returns a handle greater than zero, so a
    handle is always truthy. The only callback this file registers is
    [toggleTitleIndicator], so a live handle stands for that callback. *)
Record Window : Type := {
  documentTitle : string;
  liveIntervals : list positive;
  nextHandle : positive;
  soundsPlayed : nat
}.

Definition World : Type := (Window * WebchatUI)%type.

(** ** The rendered tree *)

Inductive Component : Type :=
| Fragment
| ThemeProvider (theme : IWebchatTheme)
| WebchatWrapper
| CacheProvider
| WebchatRoot
| Header (connected : bool) (logoUrl : option string) (title : string)
| HistoryWrapper (disableBranding : option bool)
| MessagePluginRenderer (message : IMessage) (plugins : list MessagePlugin)
| MessageRow (hidden : bool)
| TypingIndicatorBubble
| Input (plugins : list InputPlugin) (inputMode : string)
| FullScreenMessage (message : option IMessage) (plugins : list MessagePlugin)
| DisconnectOverlay (isPermanent : bool)
| Div
| MessageTeaser
| FAB
| CloseIcon
| ChatIcon
| Badge (content : nat).

(** [Null] stands for the children React does not display: [false], [null]
    and the empty string. *)
Inductive VNode : Type :=
| Element (c : Component) (children : list VNode)
| Text (s : string)
| Null.

(** [{cond && <X />}] *)
Definition jsxAnd (cond : bool) (v : VNode) : VNode :=
  if cond then v else Null.

Inductive Tag : Type :=
| TFragment | TThemeProvider | TWebchatWrapper | TCacheProvider | TWebchatRoot
| THeader | THistoryWrapper | TMessagePluginRenderer | TMessageRow
| TTypingIndicatorBubble | TInput | TFullScreenMessage | TDisconnectOverlay
| TDiv | TMessageTeaser | TFAB | TCloseIcon | TChatIcon | TBadge.

Definition tagOf (c : Component) : Tag :=
  match c with
  | Fragment => TFragment
  | ThemeProvider _ => TThemeProvider
  | WebchatWrapper => TWebchatWrapper
  | CacheProvider => TCacheProvider
  | WebchatRoot => TWebchatRoot
  | Header _ _ _ => THeader
  | HistoryWrapper _ => THistoryWrapper
  | MessagePluginRenderer _ _ => TMessagePluginRenderer
  | MessageRow _ => TMessageRow
  | TypingIndicatorBubble => TTypingIndicatorBubble
  | Input _ _ => TInput
  | FullScreenMessage _ _ => TFullScreenMessage
  | DisconnectOverlay _ => TDisconnectOverlay
  | Div => TDiv
  | MessageTeaser => TMessageTeaser
  | FAB => TFAB
  | CloseIcon => TCloseIcon
  | ChatIcon => TChatIcon
  | Badge _ => TBadge
  end.

Definition tagEqb (a b : Tag) : bool :=
  match a, b with
  | TFragment, TFragment | TThemeProvider, TThemeProvider
  | TWebchatWrapper, TWebchatWrapper | TCacheProvider, TCacheProvider
  | TWebchatRoot, TWebchatRoot | THeader, THeader
  | THistoryWrapper, THistoryWrapper
  | TMessagePluginRenderer, TMessagePluginRenderer
  | TMessageRow, TMessageRow
  | TTypingIndicatorBubble, TTypingIndicatorBubble | TInput, TInput
  | TFullScreenMessage, TFullScreenMessage
  | TDisconnectOverlay, TDisconnectOverlay | TDiv, TDiv
  | TMessageTeaser, TMessageTeaser | TFAB, TFAB | TCloseIcon, TCloseIcon
  | TChatIcon, TChatIcon | TBadge, TBadge => true
  | _, _ => false
  end.

(** [occurs t v]: an element with tag [t] appears somewhere in [v]. *)
Fixpoint occurs (t : Tag) (v : VNode) : bool :=
  match v with
  | Element c children => tagEqb (tagOf c) t || existsb (occurs t) children
  | Text _ => false
  | Null => false
  end.

(** ** State updates *)

Definition initialState : WebchatUIState := {|
  theme := createWebchatTheme None;
  stMessagePlugins := [];
  stInputPlugins := [];
  hadConnection := false;
  lastUnseenMessageText := EmptyString
|}.

Definition withTheme (t : IWebchatTheme) (st : WebchatUIState) : WebchatUIState := {|
  theme := t;
  stMessagePlugins := stMessagePlugins st;
  stInputPlugins := stInputPlugins st;
  hadConnection := hadConnection st;
  lastUnseenMessageText := lastUnseenMessageText st
|}.

Definition withPlugins (ips : list InputPlugin) (mps : list MessagePlugin)
    (st : WebchatUIState) : WebchatUIState := {|
  theme := theme st;
  stMessagePlugins := mps;
  stInputPlugins := ips;
  hadConnection := hadConnection st;
  lastUnseenMessageText := lastUnseenMessageText st
|}.

Definition withHadConnection (b : bool) (st : WebchatUIState) : WebchatUIState := {|
  theme := theme st;
  stMessagePlugins := stMessagePlugins st;
  stInputPlugins := stInputPlugins st;
  hadConnection := b;
  lastUnseenMessageText := lastUnseenMessageText st
|}.

Definition withLastUnseenMessageText (s : string) (st : WebchatUIState)
    : WebchatUIState := {|
  theme := theme st;
  stMessagePlugins := stMessagePlugins st;
  stInputPlugins := stInputPlugins st;
  hadConnection := hadConnection st;
  lastUnseenMessageText := s
|}.

(** [this.setState(patch)] *)
Definition setState (patch : WebchatUIState -> WebchatUIState) (c : WebchatUI)
    : WebchatUI := {|
  props := props c;
  state := patch (state c);
  unreadTitleIndicatorInterval := unreadTitleIndicatorInterval c;
  originalTitle := originalTitle c;
  titleType := titleType c
|}.

Definition setProps (p : WebchatUIProps) (c : WebchatUI) : WebchatUI := {|
  props := p;
  state := state c;
  unreadTitleIndicatorInterval := unreadTitleIndicatorInterval c;
  originalTitle := originalTitle c;
  titleType := titleType c
|}.

Definition setIntervalField (h : option positive) (c : WebchatUI) : WebchatUI := {|
  props := props c;
  state := state c;
  unreadTitleIndicatorInterval := h;
  originalTitle := originalTitle c;
  titleType := titleType c
|}.

Definition setTitleType (t : TitleType) (c : WebchatUI) : WebchatUI := {|
  props := props c;
  state := state c;
  unreadTitleIndicatorInterval := unreadTitleIndicatorInterval c;
  originalTitle := originalTitle c;
  titleType := t
|}.

(** ** Browser operations *)

Definition setDocumentTitle (s : string) (win : Window) : Window := {|
  documentTitle := s;
  liveIntervals := liveIntervals win;
  nextHandle := nextHandle win;
  soundsPlayed := soundsPlayed win
|}.

(** [setInterval(callback, 1000)]: a new live handle. *)
Definition setInterval (win : Window) : positive * Window :=
  (nextHandle win,
   {| documentTitle := documentTitle win;
      liveIntervals := nextHandle win :: liveIntervals win;
      nextHandle := Pos.succ (nextHandle win);
      soundsPlayed := soundsPlayed win |}).

Definition clearInterval (h : positive) (win : Window) : Window := {|
  documentTitle := documentTitle win;
  liveIntervals := remove Pos.eq_dec h (liveIntervals win);
  nextHandle := nextHandle win;
  soundsPlayed := soundsPlayed win
|}.

(** [notificationSound.play()] *)
Definition playNotificationSound (win : Window) : Window := {|
  documentTitle := documentTitle win;
  liveIntervals := liveIntervals win;
  nextHandle := nextHandle win;
  soundsPlayed := S (soundsPlayed win)
|}.

(** ** The component *)

(** Field initialisers and constructor (lines 104-122):
    [originalTitle] captures [window.document.title]. *)
Definition construct (p : WebchatUIProps) (win : Window) : WebchatUI := {|
  props := p;
  state := initialState;
  unreadTitleIndicatorInterval := None;
  originalTitle := documentTitle win;
  titleType := original
|}.

(** [static getDerivedStateFromProps] (lines 124-135); [None] is the
    [null] result, which leaves the state as it is. *)
Definition getDerivedStateFromProps (p : WebchatUIProps) (st : WebchatUIState)
    : option WebchatUIState :=
  let color :=
    match settings (config p) with
    | Some s => colorScheme s
    | None => None
    end in
  match color with
  | Some c =>
      if truthyStr c && negb (String.eqb c (primaryColor (theme st)))
      then Some (withTheme (createWebchatTheme (Some (Some c))) st)
      else None
  | None => None
  end.

(** [initializeTitleIndicator] (lines 207-212) *)
Definition initializeTitleIndicator (w : World) : World :=
  let (win, this) := w in
  match unreadTitleIndicatorInterval this with
  | Some _ => w
  | None =>
      let (h, win') := setInterval win in
      (win', setIntervalField (Some h) this)
  end.

(** The template literal of line 220. *)
Definition unreadTitle (n : nat) (label : option string) : string :=
  "(" ++ templateNat n ++ ") " ++ templateOptStr label.

(** [toggleTitleIndicator] (lines 214-224) *)
Definition toggleTitleIndicator (w : World) : Result World :=
  let (win, this) := w in
  match titleType this with
  | unread =>
      Ok (setDocumentTitle (originalTitle this) win, setTitleType original this)
  | original =>
      let n := length (items (unseenMessages (props this))) in
      if (0 <? n)%nat then
        let* label :=
          member (settings (config (props this))) unreadMessageTitleText in
        Ok (setDocumentTitle (unreadTitle n label) win, setTitleType unread this)
      else Ok w
  end.

(** [componentDidMount] (lines 137-146) *)
Definition componentDidMount (w : World) : Result World :=
  let (win, this) := w in
  let this1 :=
    setState
      (withPlugins
         (inputPlugins (props this) ++ [textInputPlugin])
         (match messagePlugins (props this) with
          | Some l => l
          | None => []
          end ++ [regularMessagePlugin]))
      this in
  let* enabled :=
    member (settings (config (props this1))) enableUnreadMessageTitleIndicator in
  if truthy enabled then Ok (initializeTitleIndicator (win, this1))
  else Ok (win, this1).

(** The text of the last unseen message (lines 166-171). *)
Definition lastUnseenText (unseen : list IMessage) : string :=
  match rev unseen with
  | [] => EmptyString
  | lastUnseenMessage :: _ => getTextFromMessage lastUnseenMessage
  end.

(** [componentDidUpdate] (lines 148-191) *)
Definition componentDidUpdate (prevProps : WebchatUIProps)
    (prevState : WebchatUIState) (w : World) : Result World :=
  let (win, this) := w in
  (* lines 149-153 *)
  let* color := member (settings (config (props this))) colorScheme in
  let* prevColor := member (settings (config prevProps)) colorScheme in
  let this1 :=
    if strictNeqStr color prevColor
    then setState (withTheme (createWebchatTheme (Some color))) this
    else this in
  (* lines 155-159 *)
  let this2 :=
    if negb (hadConnection prevState) && connected (props this1)
    then setState (withHadConnection true) this1
    else this1 in
  (* lines 161-182 *)
  let* w3 :=
    if arrayNeq (unseenMessages prevProps) (unseenMessages (props this2)) then
      let unseen := items (unseenMessages (props this2)) in
      let* preview :=
        member (settings (config (props this2))) enableUnreadMessagePreview in
      let this3 :=
        if truthy preview
        then setState (withLastUnseenMessageText (lastUnseenText unseen)) this2
        else this2 in
      if (0 <? length unseen)%nat then
        let* sound := member (settings (config (props this3))) enableUnreadMessageSound in
        if truthy sound then Ok (playNotificationSound win, this3)
        else Ok (win, this3)
      else Ok (win, this3)
    else Ok (win, this2) in
  (* lines 184-190 *)
  let* enabled :=
    member (settings (config (props (snd w3)))) enableUnreadMessageTitleIndicator in
  if truthy enabled then
    let* prevEnabled :=
      member (settings (config prevProps)) enableUnreadMessageTitleIndicator in
    if strictNeqBool enabled prevEnabled then Ok (initializeTitleIndicator w3)
    else Ok w3
  else Ok w3.

(** [componentWillUnmount] (lines 193-201) *)
Definition componentWillUnmount (w : World) : World :=
  let (win, this) := w in
  match unreadTitleIndicatorInterval this with
  | Some h => (clearInterval h win, setIntervalField None this)
  | None => w
  end.

(** [renderHistory] (lines 396-425) *)
Definition renderHistory (this : WebchatUI) : VNode :=
  let renderTypingIndicator :=
    negb (String.eqb (typingIndicator (props this)) "remove") in
  let typingIndicatorHidden := String.eqb (typingIndicator (props this)) "hide" in
  Element Fragment
    (map (fun message =>
            Element (MessagePluginRenderer message (stMessagePlugins (state this))) [])
         (messages (props this))
     ++ [jsxAnd renderTypingIndicator
           (Element (MessageRow typingIndicatorHidden)
              [Element TypingIndicatorBubble []])]).

(** [renderInput] (lines 234-250) *)
Definition renderInput (this : WebchatUI) : VNode :=
  Element (Input (stInputPlugins (state this)) (inputMode (props this))) [].

(** [renderRegularLayout] (lines 349-370) *)
Definition renderRegularLayout (this : WebchatUI) : Result VNode :=
  let cfg := config (props this) in
  let* logoUrl := member (settings cfg) headerLogoUrl in
  let* title := member (settings cfg) title in
  let* branding := member (settings cfg) disableBranding in
  Ok (Element Fragment
        [Element
           (Header (active cfg) logoUrl
              (match title with
               | Some t => if truthyStr t then t else "Cognigy Webchat"
               | None => "Cognigy Webchat"
               end)) [];
         Element (HistoryWrapper branding) [renderHistory this];
         renderInput this]).

(** [renderFullscreenMessageLayout] (lines 372-394) *)
Definition renderFullscreenMessageLayout (this : WebchatUI) : VNode :=
  Element
    (FullScreenMessage (fullscreenMessage (props this))
       (stMessagePlugins (state this))) [].

(** [render] (lines 252-347); [Ok None] is the [null] result. *)
Definition render (this : WebchatUI) : Result (option VNode) :=
  let p := props this in
  let st := state this in
  (* line 275 *)
  let* disableToggle := member (settings (config p)) disableToggleButton in
  let* statusIndicator := member (settings (config p)) enableConnectionStatusIndicator in
  (* lines 277-278 *)
  if negb (active (config p)) then Ok None else
  (* line 280 *)
  let showDisconnectOverlay :=
    truthy statusIndicator && negb (connected p) && hadConnection st in
  let* panel :=
    if open p then
      let* layout :=
        match fullscreenMessage p with
        | None => renderRegularLayout this
        | Some _ => Ok (renderFullscreenMessageLayout this)
        end in
      Ok (Element WebchatRoot
            [layout;
             jsxAnd showDisconnectOverlay
               (Element (DisconnectOverlay (reconnectionLimit p)) [])])
    else Ok Null in
  let* toggle :=
    if negb (truthy disableToggle) then
      let* badge := member (settings (config p)) enableUnreadMessageBadge in
      Ok (Element Div
            [jsxAnd (truthyStr (lastUnseenMessageText st))
               (Element MessageTeaser [Text (lastUnseenMessageText st)]);
             Element FAB
               [if open p then Element CloseIcon [] else Element ChatIcon [];
                if truthy badge
                then Element (Badge (length (items (unseenMessages p)))) []
                else Null]])
    else Ok Null in
  Ok (Some
        (Element Fragment
           [Element (ThemeProvider (theme st))
              [Element Fragment
                 [Element WebchatWrapper
                    [Element CacheProvider [panel; toggle]]]]])).

(** ** The React lifecycle

    React keeps, next to the instance, the state of the last render (the
    [prevState] handed to the next [componentDidUpdate]; the [prevProps] are
    the props of the instance before the update). [outputs] records the
    results of [render], the latest first. *)

Record Session : Type := {
  world : World;
  committed : WebchatUIState;
  outputs : list (option VNode)
}.

Definition window (s : Session) : Window := fst (world s).
Definition instance (s : Session) : WebchatUI := snd (world s).

(** The state a render works on: [getDerivedStateFromProps] runs before
    every [render]. *)
Definition applyDerivedState (this : WebchatUI) : WebchatUI :=
  match getDerivedStateFromProps (props this) (state this) with
  | Some st => setState (fun _ => st) this
  | None => this
  end.

(** Mounting: constructor, first render, [componentDidMount]. *)
Definition mount (p : WebchatUIProps) (win : Window) : Result Session :=
  let this := applyDerivedState (construct p win) in
  let* out := render this in
  let* w := componentDidMount (win, this) in
  Ok {| world := w; committed := state this; outputs := [out] |}.

(** One update with the props [p]: render, then [componentDidUpdate] with
    the previous props and the previously rendered state. *)
Definition update (p : WebchatUIProps) (s : Session) : Result Session :=
  let prevProps := props (instance s) in
  let prevState := committed s in
  let this := applyDerivedState (setProps p (instance s)) in
  let* out := render this in
  let* w := componentDidUpdate prevProps prevState (window s, this) in
  Ok {| world := w; committed := state this; outputs := out :: outputs s |}.

(** The interval [h] elapses: its callback runs if [h] is still live. *)
Definition fire (h : positive) (w : World) : Result World :=
  if existsb (Pos.eqb h) (liveIntervals (fst w)) then toggleTitleIndicator w
  else Ok w.

Inductive Event : Type :=
| SetProps (p : WebchatUIProps)   (* the host passes new props *)
| Rerender                        (* a [setState] is flushed: same props *)
| Tick (h : positive).            (* an interval elapses *)

Definition step (e : Event) (s : Session) : Result Session :=
  match e with
  | SetProps p => update p s
  | Rerender => update (props (instance s)) s
  | Tick h =>
      let* w := fire h (world s) in
      Ok {| world := w; committed := committed s; outputs := outputs s |}
  end.

Fixpoint run (es : list Event) (s : Session) : Result Session :=
  match es with
  | [] => Ok s
  | e :: es' => let* s' := step e s in run es' s'
  end.

(** A component lifetime up to now: mounted with [p0], then the events. *)
Definition lifecycle (p0 : WebchatUIProps) (win : Window) (es : list Event)
    : Result Session :=
  let* s0 := mount p0 win in run es s0.

(** The props in force at each update of a run that starts with [cur]. *)
Fixpoint propsAlong (cur : WebchatUIProps) (es : list Event)
    : list WebchatUIProps :=
  match es with
  | [] => []
  | SetProps p :: es' => p :: propsAlong p es'
  | Rerender :: es' => cur :: propsAlong cur es'
  | Tick _ :: es' => propsAlong cur es'
  end.

(** Unmounting ends the lifetime; afterwards only intervals can elapse. *)
Definition unmount (s : Session) : World := componentWillUnmount (world s).

Fixpoint fireAll (hs : list positive) (w : World) : Result World :=
  match hs with
  | [] => Ok w
  | h :: hs' => let* w' := fire h w in fireAll hs' w'
  end.

(** ** Observations used by the statements *)

Definition settingOf (p : WebchatUIProps) (f : IWebchatSettings -> option bool)
    : bool :=
  match settings (config p) with
  | Some s => truthy (f s)
  | None => false
  end.

Definition hostMessagePlugins (p : WebchatUIProps) : list MessagePlugin :=
  match messagePlugins p with
  | Some l => l
  | None => []
  end.

Definition shows (t : Tag) (out : option VNode) : bool :=
  match out with
  | Some v => occurs t v
  | None => false
  end.

(** What [render] displays of tag [t]; nothing when it raises. *)
Definition rendersTag (t : Tag) (this : WebchatUI) : bool :=
  match render this with
  | Ok out => shows t out
  | Throw _ => false
  end.

Definition unseenCount (this : WebchatUI) : nat :=
  length (items (unseenMessages (props this))).

Definition isSet {A : Type} (o : option A) : bool :=
  match o with
  | Some _ => true
  | None => false
  end.

(** The rendered state never knows of a connection the current state has
    forgotten. *)
Definition latchConsistent (s : Session) : Prop :=
  hadConnection (committed s) = true ->
  hadConnection (state (instance s)) = true.

(** The live intervals are exactly the handle the instance holds. *)
Definition timerConsistent (w : World) : Prop :=
  liveIntervals (fst w) =
    match unreadTitleIndicatorInterval (snd w) with
    | Some h => [h]
    | None => []
    end.

(** In the [original] phase the document shows the captured title. *)
Definition titleConsistent (w : World) : Prop :=
  titleType (snd w) = original -> documentTitle (fst w) = originalTitle (snd w).

Definition hasSettings (p : WebchatUIProps) : bool := isSet (settings (config p)).

Definition eventHasSettings (e : Event) : bool :=
  match e with
  | SetProps p => hasSettings p
  | _ => true
  end.

(** ** Reading a rendered tree *)

(** The elements of a tree in document order. *)
Fixpoint elements (v : VNode) : list Component :=
  match v with
  | Element c children => c :: flat_map elements children
  | Text _ => []
  | Null => []
  end.

Definition outElements (out : option VNode) : list Component :=
  match out with
  | Some v => elements v
  | None => []
  end.

(** The messages handed to [MessagePluginRenderer], in document order. *)
Definition renderedMessages (cs : list Component) : list IMessage :=
  flat_map
    (fun c => match c with MessagePluginRenderer m _ => [m] | _ => [] end) cs.

(** The plugin lists handed to [MessagePluginRenderer] and
    [FullScreenMessage]. *)
Definition messagePluginsHanded (cs : list Component)
    : list (list MessagePlugin) :=
  flat_map
    (fun c =>
       match c with
       | MessagePluginRenderer _ ps => [ps]
       | FullScreenMessage _ ps => [ps]
       | _ => []
       end) cs.

(** The plugin lists handed to [Input]. *)
Definition inputPluginsHanded (cs : list Component) : list (list InputPlugin) :=
  flat_map (fun c => match c with Input ps _ => [ps] | _ => [] end) cs.

(** The [content] of the badges. *)
Definition badgeContents (cs : list Component) : list nat :=
  flat_map (fun c => match c with Badge n => [n] | _ => [] end) cs.

(** The [hidden] flag of the message rows. *)
Definition messageRowsHidden (cs : list Component) : list bool :=
  flat_map (fun c => match c with MessageRow h => [h] | _ => [] end) cs.

(** The themes handed to [ThemeProvider]. *)
Definition themesProvided (cs : list Component) : list IWebchatTheme :=
  flat_map (fun c => match c with ThemeProvider t => [t] | _ => [] end) cs.

(** The [connected] and [title] props of the headers. *)
Definition headerProps (cs : list Component) : list (bool * string) :=
  flat_map (fun c => match c with Header b _ t => [(b, t)] | _ => [] end) cs.

Definition hasTag (t : Tag) (cs : list Component) : bool :=
  existsb (fun c => tagEqb (tagOf c) t) cs.

(** ** Counting along a run *)

(** Line 179 for an update from [prev] to [p]: the sound is played. *)
Definition playsSound (prev p : WebchatUIProps) : bool :=
  arrayNeq (unseenMessages prev) (unseenMessages p)
  && (0 <? length (items (unseenMessages p)))%nat
  && settingOf p enableUnreadMessageSound.

(** The updates of a run that play the sound. *)
Fixpoint soundUpdates (cur : WebchatUIProps) (es : list Event) : nat :=
  match es with
  | [] => 0
  | SetProps p :: es' => (if playsSound cur p then 1 else 0) + soundUpdates p es'
  | Rerender :: es' => soundUpdates cur es'
  | Tick _ :: es' => soundUpdates cur es'
  end.

(** Every props object of the run carries the array [a] itself as
    [unseenMessages], whatever its items are by then. *)
Definition sameUnseenArray (a : JSArray IMessage) (e : Event) : bool :=
  match e with
  | SetProps p => Nat.eqb (ref a) (ref (unseenMessages p))
  | _ => true
  end.

(** A settings block that enables nothing. *)
Definition featuresOff (p : WebchatUIProps) : bool :=
  match settings (config p) with
  | Some cfg =>
      negb (truthy (enableConnectionStatusIndicator cfg))
      && negb (truthy (enableUnreadMessageTitleIndicator cfg))
      && negb (truthy (enableUnreadMessagePreview cfg))
      && negb (truthy (enableUnreadMessageSound cfg))
      && negb (truthy (enableUnreadMessageBadge cfg))
  | None => false
  end.

Definition eventFeaturesOff (e : Event) : bool :=
  match e with
  | SetProps p => featuresOff p
  | _ => true
  end.

(** The title is the captured one, or an unread title with a positive
    count. *)
Definition titleWellFormed (w : World) : Prop :=
  match titleType (snd w) with
  | original => documentTitle (fst w) = originalTitle (snd w)
  | unread =>
      exists n label, 0 < n /\ documentTitle (fst w) = unreadTitle n label
  end.

(** While the current props enable the title indicator, a handle is held. *)
Definition indicatorRunning (w : World) : Prop :=
  settingOf (props (snd w)) enableUnreadMessageTitleIndicator = true ->
  unreadTitleIndicatorInterval (snd w) <> None.

(** An output without disconnect overlay, teaser and badge. *)
Definition quietOutput (out : option VNode) : Prop :=
  hasTag TDisconnectOverlay (outElements out) = false
  /\ hasTag TMessageTeaser (outElements out) = false
  /\ hasTag TBadge (outElements out) = false.

(** What a session looks like when no feature has ever been on. *)
Definition quietSession (win : Window) (s : Session) : Prop :=
  featuresOff (props (instance s)) = true
  /\ unreadTitleIndicatorInterval (instance s) = None
  /\ liveIntervals (window s) = []
  /\ documentTitle (window s) = documentTitle win
  /\ soundsPlayed (window s) = soundsPlayed win
  /\ lastUnseenMessageText (state (instance s)) = EmptyString
  /\ Forall quietOutput (outputs s).

End Model.

(** ** Sending a message *)

(** What the host and the history see of [sendMessage]: the calls of
    [onSendMessage] with their arguments, the latest first, and the number
    of [scrollToBottom] calls. *)
Record SendLog (Args : Type) : Type := {
  sent : list Args;
  scrolls : nat
}.
Arguments sent {Args} _.
Arguments scrolls {Args} _.

(** [sendMessage] (lines 226-232); [historyCurrent] tells whether
    [this.history.current] is set. *)
Definition sendMessage {Args : Type} (historyCurrent : bool) (args : Args)
    (log : SendLog Args) : SendLog Args :=
  let log1 :=
    if historyCurrent
    then {| sent := sent log; scrolls := S (scrolls log) |}
    else log in
  {| sent := args :: sent log1; scrolls := scrolls log1 |}.

Fixpoint sendAll {Args : Type} (calls : list (bool * Args)) (log : SendLog Args)
    : SendLog Args :=
  match calls with
  | [] => log
  | (historyCurrent, args) :: calls' =>
      sendAll calls' (sendMessage historyCurrent args log)
  end.

(** ** Sample data

    A concrete instance of the collaborators and a few props, used to run
    the component on explicit inputs. *)

Definition demoEnv : Collaborators := {|
  IMessage := string;
  MessagePlugin := string;
  InputPlugin := string;
  IWebchatTheme := option (option string);
  createWebchatTheme := fun arg => arg;
  primaryColor := fun t =>
    match t with
    | Some (Some c) => c
    | _ => "#2c6caf"
    end;
  getTextFromMessage := fun m => m;
  regularMessagePlugin := "regular-message";
  textInputPlugin := "text-input"
|}.

Definition noSettings : IWebchatSettings := {|
  colorScheme := None;
  title := None;
  headerLogoUrl := None;
  disableBranding := None;
  disableToggleButton := None;
  enableConnectionStatusIndicator := None;
  enableUnreadMessageTitleIndicator := None;
  enableUnreadMessagePreview := None;
  enableUnreadMessageSound := None;
  enableUnreadMessageBadge := None;
  unreadMessageTitleText := None
|}.

Definition allFeatures : IWebchatSettings := {|
  colorScheme := Some "#ff0000";
  title := Some "Support";
  headerLogoUrl := None;
  disableBranding := None;
  disableToggleButton := None;
  enableConnectionStatusIndicator := Some true;
  enableUnreadMessageTitleIndicator := Some true;
  enableUnreadMessagePreview := Some true;
  enableUnreadMessageSound := Some true;
  enableUnreadMessageBadge := Some true;
  unreadMessageTitleText := Some "New message"
|}.

Definition demoProps (cfg : IWebchatConfig) (isOpen isConnected : bool)
    (unseen : JSArray string) (fullscreen : option string)
    : @WebchatUIProps demoEnv :=
  @Build_WebchatUIProps demoEnv
    ["Hi"; "How can I help?"]   (* messages *)
    unseen                      (* unseenMessages *)
    fullscreen                  (* fullscreenMessage *)
    cfg                         (* config *)
    "hide"                      (* typingIndicator *)
    isOpen                      (* open *)
    (Some ["host-gallery"])     (* messagePlugins *)
    ["host-speech"]             (* inputPlugins *)
    "text"                      (* inputMode *)
    isConnected                 (* connected *)
    false.                      (* reconnectionLimit *)

Definition configWith (s : IWebchatSettings) : IWebchatConfig :=
  {| active := true; settings := Some s |}.

(** A config object without a settings block. *)
Definition configWithoutSettings : IWebchatConfig :=
  {| active := true; settings := None |}.

Definition inactiveConfig : IWebchatConfig :=
  {| active := false; settings := Some allFeatures |}.

Definition demoWindow : Window := {|
  documentTitle := "Shop";
  liveIntervals := [];
  nextHandle := 1%positive;
  soundsPlayed := 0
|}.

Definition noUnseen : JSArray string := mkArray 0 [].
Definition oneUnseen : JSArray string := mkArray 1 ["Hello"].
Definition threeUnseen : JSArray string := mkArray 2 ["a"; "b"; "c"].

Definition propsWithoutSettings : @WebchatUIProps demoEnv :=
  demoProps configWithoutSettings true true noUnseen None.

Definition propsOnline : @WebchatUIProps demoEnv :=
  demoProps (configWith allFeatures) true true noUnseen None.

Definition propsOnlineHello : @WebchatUIProps demoEnv :=
  demoProps (configWith allFeatures) true true oneUnseen None.

Definition propsOnlineThree : @WebchatUIProps demoEnv :=
  demoProps (configWith allFeatures) true true threeUnseen None.

Definition propsClosed : @WebchatUIProps demoEnv :=
  demoProps (configWith allFeatures) false true noUnseen None.

Definition propsClosedHello : @WebchatUIProps demoEnv :=
  demoProps (configWith allFeatures) false true oneUnseen None.

Definition propsOffline : @WebchatUIProps demoEnv :=
  demoProps (configWith allFeatures) true false noUnseen None.

Definition propsClosedOffline : @WebchatUIProps demoEnv :=
  demoProps (configWith allFeatures) false false noUnseen None.

Definition propsFullscreen : @WebchatUIProps demoEnv :=
  demoProps (configWith allFeatures) true true noUnseen (Some "Hi").

Definition propsInactive : @WebchatUIProps demoEnv :=
  demoProps inactiveConfig true false oneUnseen (Some "Hi").

(** Props with every optional setting left out. *)
Definition propsPlain : @WebchatUIProps demoEnv :=
  demoProps (configWith noSettings) false true oneUnseen None.

(** Props that carry other host plugin lists than the mount props. *)
Definition propsOtherPlugins : @WebchatUIProps demoEnv :=
  @Build_WebchatUIProps demoEnv
    ["Hi"] noUnseen None (configWith allFeatures) "remove" true
    None ["host-upload"; "host-speech"] "text" false false.

(** A mounted instance with a given state, for statements about one
    render. *)
Definition demoInstance (p : @WebchatUIProps demoEnv) (had : bool)
    (preview : string) : @WebchatUI demoEnv :=
  @Build_WebchatUI demoEnv p
    (@Build_WebchatUIState demoEnv None
       ["host-gallery"; "regular-message"] ["host-speech"; "text-input"]
       had preview)
    None "Shop" original.

Definition offlineInstance : @WebchatUI demoEnv :=
  demoInstance propsOffline true EmptyString.

Definition closedOfflineInstance : @WebchatUI demoEnv :=
  demoInstance propsClosedOffline true EmptyString.

Definition fullscreenInstance : @WebchatUI demoEnv :=
  demoInstance propsFullscreen false EmptyString.

Definition inactiveInstance : @WebchatUI demoEnv :=
  demoInstance propsInactive true "Hello".

(** A session around [demoInstance], as React holds it between updates. *)
Definition demoSession (p : @WebchatUIProps demoEnv) (had : bool)
    (preview : string) : @Session demoEnv :=
  @Build_Session demoEnv (demoWindow, demoInstance p had preview)
    (state (demoInstance p had preview)) [].

Definition onlineSession : @Session demoEnv :=
  demoSession propsOnline false EmptyString.

(** * Properties *)

Section Properties.

Context {env : Collaborators}.

Local Open Scope list_scope.

(** ** The result monad *)

Lemma bind_Ok {A B : Type} (r : Result A) (k : A -> Result B) (b : B) :
  bind r k = Ok b -> exists a, r = Ok a /\ k a = Ok b.
Proof.
  destruct r as [a | e]; simpl; intros H; [eauto | discriminate].
Qed.

(** ** What [render] displays *)

Lemma existsb_occurs_messages (t : Tag) (ps : list MessagePlugin)
    (ms : list IMessage) :
  tagEqb TMessagePluginRenderer t = false ->
  existsb (occurs t)
    (map (fun message => Element (MessagePluginRenderer message ps) []) ms)
  = false.
Proof.
  intros Ht. induction ms as [| m ms IH]; cbn [map existsb occurs tagOf];
    [reflexivity |].
  rewrite Ht, IH. reflexivity.
Qed.

Lemma occurs_renderHistory (t : Tag) (this : WebchatUI) :
  tagEqb TFragment t = false ->
  tagEqb TMessagePluginRenderer t = false ->
  tagEqb TMessageRow t = false ->
  tagEqb TTypingIndicatorBubble t = false ->
  occurs t (renderHistory this) = false.
Proof.
  intros Hf Hm Hr Hb. unfold renderHistory. cbn [occurs tagOf].
  rewrite Hf, existsb_app, existsb_occurs_messages by assumption.
  destruct (negb (typingIndicator (props this) =? "remove")%string);
    cbn [jsxAnd existsb occurs tagOf]; [rewrite Hr, Hb |]; reflexivity.
Qed.

(** With a settings block, [render] never raises; the tree it returns is
    described tag by tag below. *)
Lemma render_total (this : WebchatUI) (cfg : IWebchatSettings) :
  settings (config (props this)) = Some cfg ->
  exists out, render this = Ok out /\
    (out = None <-> active (config (props this)) = false).
Proof.
  intros Hs. unfold render, renderRegularLayout. rewrite Hs. simpl.
  destruct (active (config (props this))); simpl.
  - destruct (open (props this)), (fullscreenMessage (props this)),
      (truthy (disableToggleButton cfg)); simpl;
      (eexists; split; [reflexivity | split; intros; discriminate]).
  - eexists; split; [reflexivity | tauto].
Qed.

Ltac render_cases this cfg :=
  unfold rendersTag, render, renderRegularLayout, renderFullscreenMessageLayout,
    renderInput;
  match goal with H : settings (config (props this)) = Some cfg |- _ => rewrite H end;
  simpl;
  destruct (active (config (props this))); simpl; [| reflexivity];
  destruct (open (props this)), (fullscreenMessage (props this)),
    (truthy (disableToggleButton cfg)),
    (truthy (enableConnectionStatusIndicator cfg)), (connected (props this)),
    (hadConnection (state this)), (truthyStr (lastUnseenMessageText (state this))),
    (truthy (enableUnreadMessageBadge cfg));
  cbn -[renderHistory];
  rewrite ?occurs_renderHistory by reflexivity; reflexivity.

Lemma render_overlay (this : WebchatUI) (cfg : IWebchatSettings) :
  settings (config (props this)) = Some cfg ->
  rendersTag TDisconnectOverlay this =
    active (config (props this)) && open (props this)
    && (truthy (enableConnectionStatusIndicator cfg)
        && negb (connected (props this)) && hadConnection (state this)).
Proof. intros Hs. render_cases this cfg. Qed.

Lemma render_teaser (this : WebchatUI) (cfg : IWebchatSettings) :
  settings (config (props this)) = Some cfg ->
  rendersTag TMessageTeaser this =
    active (config (props this)) && negb (truthy (disableToggleButton cfg))
    && truthyStr (lastUnseenMessageText (state this)).
Proof. intros Hs. render_cases this cfg. Qed.

Lemma render_fullscreen (this : WebchatUI) (cfg : IWebchatSettings) :
  settings (config (props this)) = Some cfg ->
  rendersTag TFullScreenMessage this =
    active (config (props this)) && open (props this)
    && isSet (fullscreenMessage (props this)).
Proof. intros Hs. render_cases this cfg. Qed.

Lemma render_regular (this : WebchatUI) (cfg : IWebchatSettings) (t : Tag) :
  settings (config (props this)) = Some cfg ->
  t = THeader \/ t = THistoryWrapper \/ t = TInput ->
  rendersTag t this =
    active (config (props this)) && open (props this)
    && negb (isSet (fullscreenMessage (props this))).
Proof.
  intros Hs [-> | [-> | ->]]; render_cases this cfg.
Qed.

(** ** Effects of the lifecycle methods *)

Lemma truthy_strictNeqBool (a b : option bool) :
  truthy a = true -> strictNeqBool a b = negb (truthy b).
Proof.
  destruct a as [[|] |]; simpl; try discriminate.
  intros _. destruct b as [[|] |]; reflexivity.
Qed.

(** The whole effect of [componentDidUpdate] when it returns. *)
Lemma componentDidUpdate_spec (prevProps : WebchatUIProps)
    (prevState : WebchatUIState) (win : Window) (this : WebchatUI) (w' : World) :
  componentDidUpdate prevProps prevState (win, this) = Ok w' ->
  props (snd w') = props this
  /\ originalTitle (snd w') = originalTitle this
  /\ titleType (snd w') = titleType this
  /\ documentTitle (fst w') = documentTitle win
  /\ stMessagePlugins (state (snd w')) = stMessagePlugins (state this)
  /\ stInputPlugins (state (snd w')) = stInputPlugins (state this)
  /\ hadConnection (state (snd w')) =
       hadConnection (state this)
       || (negb (hadConnection prevState) && connected (props this))
  /\ lastUnseenMessageText (state (snd w')) =
       (if arrayNeq (unseenMessages prevProps) (unseenMessages (props this))
           && settingOf (props this) enableUnreadMessagePreview
        then lastUnseenText (items (unseenMessages (props this)))
        else lastUnseenMessageText (state this))
  /\ (liveIntervals (fst w'), unreadTitleIndicatorInterval (snd w')) =
       (if settingOf (props this) enableUnreadMessageTitleIndicator
           && negb (settingOf prevProps enableUnreadMessageTitleIndicator)
        then
          let w1 := initializeTitleIndicator (win, this) in
          (liveIntervals (fst w1), unreadTitleIndicatorInterval (snd w1))
        else (liveIntervals win, unreadTitleIndicatorInterval this)).
Proof.
  unfold componentDidUpdate, settingOf.
  destruct (settings (config (props this))) as [cfg |] eqn:Hcfg;
    [| simpl; discriminate].
  destruct (settings (config prevProps)) as [prevCfg |] eqn:Hprev;
    [| simpl; discriminate].
  cbn [member bind].
  destruct (strictNeqStr (colorScheme cfg) (colorScheme prevCfg));
  cbn [setState props state];
  destruct (hadConnection prevState), (connected (props this));
  cbn [negb andb orb setState props state];
  destruct (arrayNeq (unseenMessages prevProps) (unseenMessages (props this)));
  cbn [setState props state bind member andb]; rewrite ?Hcfg;
  cbn [member bind];
  destruct (truthy (enableUnreadMessagePreview cfg));
  cbn [setState props state bind member andb];
  destruct (0 <? length (items (unseenMessages (props this))))%nat;
  cbn [setState props state bind member andb]; rewrite ?Hcfg;
  cbn [member bind];
  destruct (truthy (enableUnreadMessageSound cfg));
  cbn [setState props state bind member andb snd]; rewrite ?Hcfg;
  cbn [member bind];
  destruct (truthy (enableUnreadMessageTitleIndicator cfg)) eqn:Hen;
  cbn [setState props state bind member andb snd];
  rewrite ?(truthy_strictNeqBool _ (enableUnreadMessageTitleIndicator prevCfg) Hen);
  destruct (truthy (enableUnreadMessageTitleIndicator prevCfg));
  cbn [negb]; intros H; injection H as <-;
  unfold initializeTitleIndicator, setInterval;
  destruct (unreadTitleIndicatorInterval this) eqn:Hint;
  cbn; rewrite ?Hint; cbn; repeat split;
  try reflexivity; destruct (hadConnection (state this)); reflexivity.
Qed.

(** The whole effect of [componentDidMount] when it returns. *)
Lemma componentDidMount_spec (win : Window) (this : WebchatUI) (w' : World) :
  componentDidMount (win, this) = Ok w' ->
  props (snd w') = props this
  /\ originalTitle (snd w') = originalTitle this
  /\ titleType (snd w') = titleType this
  /\ documentTitle (fst w') = documentTitle win
  /\ stMessagePlugins (state (snd w')) =
       hostMessagePlugins (props this) ++ [regularMessagePlugin]
  /\ stInputPlugins (state (snd w')) =
       inputPlugins (props this) ++ [textInputPlugin]
  /\ hadConnection (state (snd w')) = hadConnection (state this)
  /\ lastUnseenMessageText (state (snd w')) = lastUnseenMessageText (state this)
  /\ (liveIntervals (fst w'), unreadTitleIndicatorInterval (snd w')) =
       (if settingOf (props this) enableUnreadMessageTitleIndicator
        then
          let w1 := initializeTitleIndicator (win, this) in
          (liveIntervals (fst w1), unreadTitleIndicatorInterval (snd w1))
        else (liveIntervals win, unreadTitleIndicatorInterval this)).
Proof.
  unfold componentDidMount, settingOf, hostMessagePlugins.
  cbn [setState props state].
  destruct (settings (config (props this))) as [cfg |]; [| simpl; discriminate].
  cbn [member bind].
  destruct (truthy (enableUnreadMessageTitleIndicator cfg));
    intros H; injection H as <-;
    unfold initializeTitleIndicator, setInterval;
    destruct (unreadTitleIndicatorInterval this) eqn:Hint;
    cbn; rewrite ?Hint; cbn; repeat split; reflexivity.
Qed.

Lemma applyDerivedState_frame (this : WebchatUI) :
  props (applyDerivedState this) = props this
  /\ originalTitle (applyDerivedState this) = originalTitle this
  /\ titleType (applyDerivedState this) = titleType this
  /\ unreadTitleIndicatorInterval (applyDerivedState this) =
       unreadTitleIndicatorInterval this
  /\ stMessagePlugins (state (applyDerivedState this)) =
       stMessagePlugins (state this)
  /\ stInputPlugins (state (applyDerivedState this)) =
       stInputPlugins (state this)
  /\ hadConnection (state (applyDerivedState this)) = hadConnection (state this)
  /\ lastUnseenMessageText (state (applyDerivedState this)) =
       lastUnseenMessageText (state this).
Proof.
  unfold applyDerivedState, getDerivedStateFromProps.
  destruct (settings (config (props this))) as [cfg |];
    [destruct (colorScheme cfg) as [c |];
     [destruct (truthyStr c
                && negb (c =? primaryColor (theme (state this)))%string) |] |];
    cbn; repeat split; reflexivity.
Qed.

(** [toggleTitleIndicator] writes the title and the phase, nothing else. *)
Lemma toggleTitleIndicator_frame (w w' : World) :
  toggleTitleIndicator w = Ok w' ->
  props (snd w') = props (snd w)
  /\ state (snd w') = state (snd w)
  /\ originalTitle (snd w') = originalTitle (snd w)
  /\ unreadTitleIndicatorInterval (snd w') = unreadTitleIndicatorInterval (snd w)
  /\ liveIntervals (fst w') = liveIntervals (fst w).
Proof.
  destruct w as [win this]. unfold toggleTitleIndicator.
  destruct (titleType this).
  - destruct (0 <? length (items (unseenMessages (props this))))%nat.
    + destruct (settings (config (props this))); simpl; [| discriminate].
      intros H; injection H as <-. cbn. repeat split; reflexivity.
    + intros H; injection H as <-. repeat split; reflexivity.
  - intros H; injection H as <-. cbn. repeat split; reflexivity.
Qed.

Lemma fire_frame (h : positive) (w w' : World) :
  fire h w = Ok w' ->
  props (snd w') = props (snd w)
  /\ state (snd w') = state (snd w)
  /\ originalTitle (snd w') = originalTitle (snd w)
  /\ unreadTitleIndicatorInterval (snd w') = unreadTitleIndicatorInterval (snd w)
  /\ liveIntervals (fst w') = liveIntervals (fst w).
Proof.
  unfold fire. destruct (existsb (Pos.eqb h) (liveIntervals (fst w))).
  - apply toggleTitleIndicator_frame.
  - intros H; injection H as <-. repeat split; reflexivity.
Qed.

(** ** Decomposition of the lifecycle steps *)

Lemma mount_Ok (p : WebchatUIProps) (win : Window) (s : Session) :
  mount p win = Ok s ->
  let this := applyDerivedState (construct p win) in
  exists out,
    render this = Ok out
    /\ componentDidMount (win, this) = Ok (world s)
    /\ committed s = state this
    /\ outputs s = [out].
Proof.
  unfold mount. intros H.
  apply bind_Ok in H as (out & Hr & H).
  apply bind_Ok in H as (w & Hm & H).
  injection H as <-. exists out. simpl. auto.
Qed.

Lemma update_Ok (p : WebchatUIProps) (s s' : Session) :
  update p s = Ok s' ->
  let this := applyDerivedState (setProps p (instance s)) in
  exists out,
    render this = Ok out
    /\ componentDidUpdate (props (instance s)) (committed s) (window s, this)
       = Ok (world s')
    /\ committed s' = state this
    /\ outputs s' = out :: outputs s.
Proof.
  unfold update. intros H.
  apply bind_Ok in H as (out & Hr & H).
  apply bind_Ok in H as (w & Hu & H).
  injection H as <-. exists out. simpl. auto.
Qed.

Lemma run_app (es1 es2 : list Event) (s : Session) :
  run (es1 ++ es2) s = (let* s1 := run es1 s in run es2 s1).
Proof.
  revert s. induction es1 as [| e es1 IH]; intros s; simpl; [reflexivity |].
  destruct (step e s) as [s1 | x]; simpl; [apply IH | reflexivity].
Qed.

(** A property kept by every step holds all along a run. *)
Lemma run_invariant (P : Session -> Prop) :
  (forall e s s', P s -> step e s = Ok s' -> P s') ->
  forall es s s', P s -> run es s = Ok s' -> P s'.
Proof.
  intros Hstep es. induction es as [| e es IH]; intros s s' Hs H; simpl in H.
  - injection H as <-. exact Hs.
  - apply bind_Ok in H as (s1 & H1 & H). eauto.
Qed.

Lemma lifecycle_Ok (p0 : WebchatUIProps) (win : Window) (es : list Event)
    (s : Session) :
  lifecycle p0 win es = Ok s ->
  exists s0, mount p0 win = Ok s0 /\ run es s0 = Ok s.
Proof. unfold lifecycle. apply bind_Ok. Qed.

(** The state after one update, in terms of the state before it. *)
Lemma update_spec (p : WebchatUIProps) (s s' : Session) :
  update p s = Ok s' ->
  props (instance s') = p
  /\ originalTitle (instance s') = originalTitle (instance s)
  /\ titleType (instance s') = titleType (instance s)
  /\ documentTitle (window s') = documentTitle (window s)
  /\ stMessagePlugins (state (instance s')) =
       stMessagePlugins (state (instance s))
  /\ stInputPlugins (state (instance s')) = stInputPlugins (state (instance s))
  /\ hadConnection (state (instance s')) =
       hadConnection (state (instance s))
       || (negb (hadConnection (committed s)) && connected p)
  /\ hadConnection (committed s') = hadConnection (state (instance s))
  /\ lastUnseenMessageText (state (instance s')) =
       (if arrayNeq (unseenMessages (props (instance s))) (unseenMessages p)
           && settingOf p enableUnreadMessagePreview
        then lastUnseenText (items (unseenMessages p))
        else lastUnseenMessageText (state (instance s))).
Proof.
  intros H. apply update_Ok in H as (out & _ & Hu & Hc & _).
  apply componentDidUpdate_spec in Hu.
  destruct Hu as (Hp & Ho & Ht & Hd & Hm & Hi & Hh & Hl & _).
  destruct (applyDerivedState_frame (setProps p (instance s)))
    as (Ap & Ao & At & _ & Am & Ai & Ah & Al).
  unfold instance, window in *.
  rewrite Hp, Ho, Ht, Hd, Hm, Hi, Hh, Hl, Hc, Ap, Ao, At, Am, Ai, Ah, Al.
  cbn [setProps props state originalTitle titleType].
  repeat split; reflexivity.
Qed.

(** A tick leaves the props and the React state alone. *)
Lemma tick_spec (h : positive) (s s' : Session) :
  step (Tick h) s = Ok s' ->
  props (instance s') = props (instance s)
  /\ state (instance s') = state (instance s)
  /\ committed s' = committed s
  /\ outputs s' = outputs s
  /\ originalTitle (instance s') = originalTitle (instance s)
  /\ unreadTitleIndicatorInterval (instance s') =
       unreadTitleIndicatorInterval (instance s)
  /\ liveIntervals (window s') = liveIntervals (window s).
Proof.
  cbn [step]. intros H. apply bind_Ok in H as (w & Hf & H).
  injection H as <-. apply fire_frame in Hf as (Hp & Hs & Ho & Hi & Hl).
  unfold instance, window. cbn [world committed outputs].
  repeat split; assumption.
Qed.

(** ** Mounting *)

Lemma mount_spec (p0 : WebchatUIProps) (win : Window) (s : Session) :
  mount p0 win = Ok s ->
  props (instance s) = p0
  /\ originalTitle (instance s) = documentTitle win
  /\ titleType (instance s) = original
  /\ documentTitle (window s) = documentTitle win
  /\ stMessagePlugins (state (instance s)) =
       hostMessagePlugins p0 ++ [regularMessagePlugin]
  /\ stInputPlugins (state (instance s)) = inputPlugins p0 ++ [textInputPlugin]
  /\ hadConnection (state (instance s)) = false
  /\ hadConnection (committed s) = false
  /\ lastUnseenMessageText (state (instance s)) = EmptyString
  /\ (exists out, outputs s = [out]
        /\ render (applyDerivedState (construct p0 win)) = Ok out).
Proof.
  intros H. apply mount_Ok in H as (out & Hr & Hm & Hc & Ho).
  destruct (world s) as [win' this'] eqn:Hw.
  apply componentDidMount_spec in Hm.
  destruct Hm as (Hp & Hot & Ht & Hd & Hmp & Hip & Hh & Hl & _).
  destruct (applyDerivedState_frame (construct p0 win))
    as (Ap & Ao & At & _ & _ & _ & Ah & Al).
  unfold instance, window. rewrite Hw. cbn [fst snd] in *.
  rewrite Hp, Hot, Ht, Hd, Hmp, Hip, Hh, Hl, Hc, Ap, Ao, At, Ah, Al.
  cbn. repeat split; try reflexivity. exists out. auto.
Qed.

(** ** The connection latch *)

Lemma step_hadConnection (e : Event) (s s' : Session) :
  step e s = Ok s' ->
  hadConnection (state (instance s')) =
    match e with
    | Tick _ => hadConnection (state (instance s))
    | _ =>
        hadConnection (state (instance s))
        || (negb (hadConnection (committed s))
            && connected (props (instance s')))
    end
  /\ hadConnection (committed s') =
      match e with
      | Tick _ => hadConnection (committed s)
      | _ => hadConnection (state (instance s))
      end.
Proof.
  destruct e as [p | | h]; cbn [step]; intros H.
  - apply update_spec in H as (Hp & _ & _ & _ & _ & _ & Hh & Hc & _).
    rewrite Hp. auto.
  - apply update_spec in H as (Hp & _ & _ & _ & _ & _ & Hh & Hc & _).
    rewrite Hp. auto.
  - apply tick_spec in H as (_ & Hs & Hc & _). rewrite Hs, Hc. auto.
Qed.

Lemma step_latchConsistent (e : Event) (s s' : Session) :
  latchConsistent s -> step e s = Ok s' -> latchConsistent s'.
Proof.
  unfold latchConsistent. intros Hs H.
  apply step_hadConnection in H as [Hh Hc]. rewrite Hh, Hc.
  destruct e; auto; intros ->; reflexivity.
Qed.

Lemma step_hadConnection_mono (e : Event) (s s' : Session) :
  hadConnection (state (instance s)) = true -> step e s = Ok s' ->
  hadConnection (state (instance s')) = true.
Proof.
  intros Hs H. apply step_hadConnection in H as [Hh _]. rewrite Hh, Hs.
  destruct e; reflexivity.
Qed.

Lemma lifecycle_latchConsistent (p0 : WebchatUIProps) (win : Window)
    (es : list Event) (s : Session) :
  lifecycle p0 win es = Ok s -> latchConsistent s.
Proof.
  intros H. apply lifecycle_Ok in H as (s0 & Hm & Hr).
  apply (run_invariant latchConsistent step_latchConsistent es s0 s); [| exact Hr].
  apply mount_spec in Hm as (_ & _ & _ & _ & _ & _ & _ & Hc & _).
  unfold latchConsistent. rewrite Hc. discriminate.
Qed.

Lemma step_props (e : Event) (s s' : Session) :
  step e s = Ok s' ->
  props (instance s') =
    match e with
    | SetProps p => p
    | _ => props (instance s)
    end.
Proof.
  destruct e as [p | | h]; cbn [step]; intros H.
  - apply update_spec in H. tauto.
  - apply update_spec in H. tauto.
  - apply tick_spec in H. tauto.
Qed.

Lemma render_Ok_settings (this : WebchatUI) (out : option VNode) :
  render this = Ok out ->
  exists cfg, settings (config (props this)) = Some cfg.
Proof.
  unfold render. destruct (settings (config (props this))) as [cfg |].
  - eauto.
  - simpl. discriminate.
Qed.

Lemma render_Ok_overlay (this : WebchatUI) (out : option VNode) :
  render this = Ok out ->
  shows TDisconnectOverlay out = true ->
  hadConnection (state this) = true /\ connected (props this) = false
  /\ open (props this) = true /\ active (config (props this)) = true
  /\ settingOf (props this) enableConnectionStatusIndicator = true.
Proof.
  intros Hr Hs. destruct (render_Ok_settings this out Hr) as [cfg Hcfg].
  pose proof (render_overlay this cfg Hcfg) as H.
  unfold rendersTag, settingOf in *. rewrite Hr, Hs in H. rewrite Hcfg.
  destruct (active (config (props this))), (open (props this)),
    (truthy (enableConnectionStatusIndicator cfg)), (connected (props this)),
    (hadConnection (state this)); try discriminate.
  repeat split; reflexivity.
Qed.

(** The render of one step, when there is one, works on the state left by
    the step before. *)
Lemma step_outputs (e : Event) (s s' : Session) :
  step e s = Ok s' ->
  outputs s' = outputs s
  \/ exists this out,
       outputs s' = out :: outputs s /\ render this = Ok out
       /\ props this = props (instance s')
       /\ hadConnection (state this) = hadConnection (state (instance s))
       /\ lastUnseenMessageText (state this) =
            lastUnseenMessageText (state (instance s)).
Proof.
  assert (Hupd : forall p, update p s = Ok s' ->
    exists this out,
       outputs s' = out :: outputs s /\ render this = Ok out
       /\ props this = props (instance s')
       /\ hadConnection (state this) = hadConnection (state (instance s))
       /\ lastUnseenMessageText (state this) =
            lastUnseenMessageText (state (instance s))).
  { intros p H. pose proof (update_spec p s s' H) as (Hp & _).
    apply update_Ok in H as (out & Hr & _ & _ & Ho).
    destruct (applyDerivedState_frame (setProps p (instance s)))
      as (Ap & _ & _ & _ & _ & _ & Ah & Al).
    exists (applyDerivedState (setProps p (instance s))), out.
    rewrite Hp, Ap, Ah, Al. cbn. auto. }
  destruct e as [p | | h]; cbn [step]; intros H.
  - right. eauto.
  - right. eauto.
  - left. apply tick_spec in H. tauto.
Qed.

(** While no update has seen [connected], the latch stays open and no
    render shows the overlay. *)
Lemma run_never_connected (es : list Event) (s s' : Session) :
  run es s = Ok s' ->
  hadConnection (state (instance s)) = false ->
  forallb (fun p => negb (connected p)) (propsAlong (props (instance s)) es) = true ->
  Forall (fun out => shows TDisconnectOverlay out = false) (outputs s) ->
  hadConnection (state (instance s')) = false
  /\ Forall (fun out => shows TDisconnectOverlay out = false) (outputs s').
Proof.
  revert s. induction es as [| e es IH]; intros s H Hh Hc Ho; simpl in H.
  - injection H as <-. auto.
  - apply bind_Ok in H as (s1 & H1 & H).
    pose proof (step_props e s s1 H1) as Hp.
    pose proof (step_hadConnection e s s1 H1) as [Hh1 _].
    pose proof (step_outputs e s s1 H1) as Hout.
    assert (Hno : Forall (fun out => shows TDisconnectOverlay out = false)
                    (outputs s1)).
    { destruct Hout as [-> | (this & out & -> & Hr & _ & Hth & _)]; [exact Ho |].
      constructor; [| exact Ho].
      destruct (shows TDisconnectOverlay out) eqn:Hs; [| reflexivity].
      apply (render_Ok_overlay this out Hr) in Hs as (Hs & _). congruence. }
    apply (IH s1 H); [| | exact Hno].
    + rewrite Hh1, Hh, Hp.
      destruct e as [p | | h]; cbn [propsAlong forallb] in Hc;
        try apply andb_prop in Hc as [Hc _]; try reflexivity;
        apply negb_true_iff in Hc; rewrite Hc, andb_false_r; reflexivity.
    + rewrite Hp.
      destruct e as [p | | h]; cbn [propsAlong forallb] in Hc;
        try apply andb_prop in Hc as [_ Hc]; exact Hc.
Qed.

(** ** The title indicator interval *)

Lemma initializeTitleIndicator_idempotent (w : World) :
  initializeTitleIndicator (initializeTitleIndicator w) =
  initializeTitleIndicator w.
Proof.
  destruct w as [win this]. unfold initializeTitleIndicator, setInterval.
  destruct (unreadTitleIndicatorInterval this) eqn:Hi.
  - rewrite Hi. reflexivity.
  - reflexivity.
Qed.

Lemma initializeTitleIndicator_timer (w : World) :
  timerConsistent w -> timerConsistent (initializeTitleIndicator w).
Proof.
  destruct w as [win this]. unfold timerConsistent, initializeTitleIndicator.
  cbn [fst snd]. destruct (unreadTitleIndicatorInterval this) eqn:Hi.
  - cbn [fst snd]. rewrite Hi. auto.
  - cbn. intros ->. reflexivity.
Qed.

Lemma timerConsistent_pair (w w' : World) :
  (liveIntervals (fst w'), unreadTitleIndicatorInterval (snd w')) =
  (liveIntervals (fst w), unreadTitleIndicatorInterval (snd w)) ->
  timerConsistent w -> timerConsistent w'.
Proof.
  unfold timerConsistent. intros H. injection H as -> ->. auto.
Qed.

Lemma componentDidUpdate_timer (prevProps : WebchatUIProps)
    (prevState : WebchatUIState) (w w' : World) :
  componentDidUpdate prevProps prevState w = Ok w' ->
  timerConsistent w -> timerConsistent w'.
Proof.
  destruct w as [win this]. intros H Hw.
  apply componentDidUpdate_spec in H.
  destruct H as (_ & _ & _ & _ & _ & _ & _ & _ & H).
  destruct (settingOf (props this) enableUnreadMessageTitleIndicator
            && negb (settingOf prevProps enableUnreadMessageTitleIndicator)).
  - apply (timerConsistent_pair (initializeTitleIndicator (win, this)));
      [exact H | apply initializeTitleIndicator_timer, Hw].
  - apply (timerConsistent_pair (win, this)); assumption.
Qed.

Lemma componentDidMount_timer (w w' : World) :
  componentDidMount w = Ok w' -> timerConsistent w -> timerConsistent w'.
Proof.
  destruct w as [win this]. intros H Hw.
  apply componentDidMount_spec in H.
  destruct H as (_ & _ & _ & _ & _ & _ & _ & _ & H).
  destruct (settingOf (props this) enableUnreadMessageTitleIndicator).
  - apply (timerConsistent_pair (initializeTitleIndicator (win, this)));
      [exact H | apply initializeTitleIndicator_timer, Hw].
  - apply (timerConsistent_pair (win, this)); assumption.
Qed.

Lemma step_timerConsistent (e : Event) (s s' : Session) :
  timerConsistent (world s) -> step e s = Ok s' -> timerConsistent (world s').
Proof.
  assert (Hupd : forall p, timerConsistent (world s) -> update p s = Ok s' ->
                           timerConsistent (world s')).
  { intros p Hs H. apply update_Ok in H as (out & _ & Hu & _).
    apply (componentDidUpdate_timer _ _ _ _ Hu).
    destruct (applyDerivedState_frame (setProps p (instance s)))
      as (_ & _ & _ & Ai & _).
    unfold timerConsistent in *. cbn [fst snd]. rewrite Ai. exact Hs. }
  destruct e as [p | | h]; cbn [step]; intros Hs H; eauto.
  apply tick_spec in H as (_ & _ & _ & _ & _ & Hi & Hl).
  unfold timerConsistent, instance, window in *. rewrite Hi, Hl. exact Hs.
Qed.

Lemma lifecycle_timerConsistent (p0 : WebchatUIProps) (win : Window)
    (es : list Event) (s : Session) :
  liveIntervals win = [] -> lifecycle p0 win es = Ok s ->
  timerConsistent (world s).
Proof.
  intros Hwin H. apply lifecycle_Ok in H as (s0 & Hm & Hr).
  apply (run_invariant (fun s => timerConsistent (world s))
           step_timerConsistent es s0 s); [| exact Hr].
  apply mount_Ok in Hm as (out & _ & Hm & _).
  apply (componentDidMount_timer _ _ Hm).
  destruct (applyDerivedState_frame (construct p0 win)) as (_ & _ & _ & Ai & _).
  unfold timerConsistent. cbn [fst snd]. rewrite Ai. exact Hwin.
Qed.

Lemma unmount_clears (w : World) :
  timerConsistent w ->
  liveIntervals (fst (componentWillUnmount w)) = []
  /\ unreadTitleIndicatorInterval (snd (componentWillUnmount w)) = None
  /\ documentTitle (fst (componentWillUnmount w)) = documentTitle (fst w).
Proof.
  destruct w as [win this]. unfold timerConsistent, componentWillUnmount.
  cbn [fst snd]. destruct (unreadTitleIndicatorInterval this) as [h |] eqn:Hi.
  - intros Hl. cbn. rewrite Hl. cbn.
    destruct (Pos.eq_dec h h) as [_ | Hne]; [auto | contradiction].
  - intros Hl. cbn [fst snd]. auto.
Qed.

Lemma fireAll_no_intervals (hs : list positive) (w : World) :
  liveIntervals (fst w) = [] -> fireAll hs w = Ok w.
Proof.
  intros Hl. induction hs as [| h hs IH]; simpl; [reflexivity |].
  unfold fire. rewrite Hl. simpl. exact IH.
Qed.

(** ** The title indicator phase *)

Lemma toggleTitleIndicator_title (w w' : World) :
  toggleTitleIndicator w = Ok w' -> titleConsistent w -> titleConsistent w'.
Proof.
  destruct w as [win this]. unfold toggleTitleIndicator, titleConsistent.
  cbn [fst snd]. destruct (titleType this) eqn:Ht.
  - destruct (0 <? length (items (unseenMessages (props this))))%nat.
    + destruct (settings (config (props this))); simpl; [| discriminate].
      intros H; injection H as <-. cbn. discriminate.
    + intros H; injection H as <-. cbn [fst snd]. rewrite Ht. auto.
  - intros H; injection H as <-. cbn. auto.
Qed.

Lemma step_titleConsistent (e : Event) (s s' : Session) :
  titleConsistent (world s) -> step e s = Ok s' -> titleConsistent (world s').
Proof.
  assert (Hupd : forall p, titleConsistent (world s) -> update p s = Ok s' ->
                           titleConsistent (world s')).
  { intros p Hs H. apply update_spec in H as (_ & Ho & Ht & Hd & _).
    unfold titleConsistent, instance, window in *.
    rewrite Ho, Ht, Hd. exact Hs. }
  destruct e as [p | | h]; cbn [step]; intros Hs H; eauto.
  apply bind_Ok in H as (w & Hf & H). injection H as <-. cbn [world].
  unfold fire in Hf.
  destruct (existsb (Pos.eqb h) (liveIntervals (fst (world s)))).
  - apply (toggleTitleIndicator_title _ _ Hf Hs).
  - injection Hf as <-. exact Hs.
Qed.

Lemma lifecycle_titleConsistent (p0 : WebchatUIProps) (win : Window)
    (es : list Event) (s : Session) :
  lifecycle p0 win es = Ok s ->
  titleConsistent (world s) /\ originalTitle (instance s) = documentTitle win.
Proof.
  intros H. apply lifecycle_Ok in H as (s0 & Hm & Hr).
  apply (run_invariant
           (fun s => titleConsistent (world s)
                     /\ originalTitle (instance s) = documentTitle win)) with
    (es := es) (s := s0); [| | exact Hr].
  - intros e s1 s2 [Ht Ho] Hs. split; [eapply step_titleConsistent; eauto |].
    rewrite <- Ho. destruct e as [p | | h]; cbn [step] in Hs.
    + apply update_spec in Hs. tauto.
    + apply update_spec in Hs. tauto.
    + apply tick_spec in Hs. tauto.
  - apply mount_spec in Hm as (_ & Ho & _ & Hd & _).
    unfold titleConsistent, instance, window in *. rewrite Ho, Hd. auto.
Qed.

(** ** With a settings block nothing raises *)

Lemma hasSettings_Some (p : WebchatUIProps) :
  hasSettings p = true -> exists cfg, settings (config p) = Some cfg.
Proof.
  unfold hasSettings. destruct (settings (config p)) as [cfg |]; simpl.
  - eauto.
  - discriminate.
Qed.

Lemma componentDidMount_total (w : World) :
  hasSettings (props (snd w)) = true -> exists w', componentDidMount w = Ok w'.
Proof.
  destruct w as [win this]. intros H. apply hasSettings_Some in H as [cfg H].
  unfold componentDidMount. cbn [setState props snd] in *. rewrite H.
  cbn [member bind].
  destruct (truthy (enableUnreadMessageTitleIndicator cfg)); eauto.
Qed.

Lemma componentDidUpdate_total (prevProps : WebchatUIProps)
    (prevState : WebchatUIState) (w : World) :
  hasSettings (props (snd w)) = true -> hasSettings prevProps = true ->
  exists w', componentDidUpdate prevProps prevState w = Ok w'.
Proof.
  destruct w as [win this]. cbn [snd]. intros H Hprev.
  apply hasSettings_Some in H as [cfg Hcfg].
  apply hasSettings_Some in Hprev as [prevCfg Hprev].
  unfold componentDidUpdate. rewrite Hcfg, Hprev. cbn [member bind].
  destruct (strictNeqStr (colorScheme cfg) (colorScheme prevCfg));
  cbn [setState props state];
  destruct (negb (hadConnection prevState) && connected (props this));
  cbn [setState props state];
  destruct (arrayNeq (unseenMessages prevProps) (unseenMessages (props this)));
  cbn [setState props state bind member]; rewrite ?Hcfg; cbn [member bind];
  destruct (truthy (enableUnreadMessagePreview cfg));
  cbn [setState props state bind member];
  destruct (0 <? length (items (unseenMessages (props this))))%nat;
  cbn [setState props state bind member]; rewrite ?Hcfg; cbn [member bind];
  destruct (truthy (enableUnreadMessageSound cfg));
  cbn [setState props state bind member snd]; rewrite ?Hcfg; cbn [member bind];
  destruct (truthy (enableUnreadMessageTitleIndicator cfg));
  destruct (strictNeqBool (enableUnreadMessageTitleIndicator cfg)
              (enableUnreadMessageTitleIndicator prevCfg));
  eauto.
Qed.

Lemma toggleTitleIndicator_total (w : World) :
  hasSettings (props (snd w)) = true -> exists w', toggleTitleIndicator w = Ok w'.
Proof.
  destruct w as [win this]. cbn [snd]. intros H.
  apply hasSettings_Some in H as [cfg Hcfg]. unfold toggleTitleIndicator.
  rewrite Hcfg. cbn [member bind].
  destruct (titleType this);
    [destruct (0 <? length (items (unseenMessages (props this))))%nat |];
    eauto.
Qed.

Lemma render_hasSettings (this : WebchatUI) :
  hasSettings (props this) = true -> exists out, render this = Ok out.
Proof.
  intros H. apply hasSettings_Some in H as [cfg Hcfg].
  destruct (render_total this cfg Hcfg) as (out & Hr & _). eauto.
Qed.

Lemma update_total (p : WebchatUIProps) (s : Session) :
  hasSettings (props (instance s)) = true -> hasSettings p = true ->
  exists s', update p s = Ok s'.
Proof.
  intros Hs Hp. unfold update.
  destruct (applyDerivedState_frame (setProps p (instance s))) as (Ap & _).
  cbn [setProps props] in Ap.
  destruct (render_hasSettings (applyDerivedState (setProps p (instance s))))
    as [out ->]; [rewrite Ap; exact Hp |].
  destruct (componentDidUpdate_total (props (instance s)) (committed s)
              (window s, applyDerivedState (setProps p (instance s))))
    as [w ->]; [cbn [snd]; rewrite Ap; exact Hp | exact Hs |].
  cbn [bind]. eauto.
Qed.

Lemma step_total (e : Event) (s : Session) :
  hasSettings (props (instance s)) = true -> eventHasSettings e = true ->
  exists s', step e s = Ok s' /\ hasSettings (props (instance s')) = true.
Proof.
  intros Hs He.
  assert (H : exists s', step e s = Ok s').
  { destruct e as [p | | h]; cbn [step].
    - apply update_total; assumption.
    - apply update_total; assumption.
    - unfold fire.
      destruct (existsb (Pos.eqb h) (liveIntervals (fst (world s)))).
      + destruct (toggleTitleIndicator_total (world s) Hs) as [w ->].
        cbn [bind]. eauto.
      + cbn [bind]. eauto. }
  destruct H as [s' H]. exists s'. split; [exact H |].
  rewrite (step_props e s s' H). destruct e; assumption.
Qed.

Lemma run_total (es : list Event) (s : Session) :
  hasSettings (props (instance s)) = true ->
  forallb eventHasSettings es = true ->
  exists s', run es s = Ok s'.
Proof.
  revert s. induction es as [| e es IH]; intros s Hs Hes; simpl.
  - eauto.
  - simpl in Hes. apply andb_prop in Hes as [He Hes].
    destruct (step_total e s Hs He) as (s1 & -> & Hs1). cbn [bind]. auto.
Qed.

Lemma mount_total (p0 : WebchatUIProps) (win : Window) :
  hasSettings p0 = true -> exists s, mount p0 win = Ok s.
Proof.
  intros Hp. unfold mount.
  destruct (applyDerivedState_frame (construct p0 win)) as (Ap & _).
  cbn [construct props] in Ap.
  destruct (render_hasSettings (applyDerivedState (construct p0 win)))
    as [out ->]; [rewrite Ap; exact Hp |].
  destruct (componentDidMount_total (win, applyDerivedState (construct p0 win)))
    as [w ->]; [cbn [snd]; rewrite Ap; exact Hp |].
  cbn [bind]. eauto.
Qed.

(** As long as every props object carries a settings block, whatever
    individual settings it leaves out, no lifecycle method, render or tick
    raises. *)
Lemma lifecycle_total (p0 : WebchatUIProps) (win : Window) (es : list Event) :
  hasSettings p0 = true -> forallb eventHasSettings es = true ->
  exists s, lifecycle p0 win es = Ok s.
Proof.
  intros Hp Hes. unfold lifecycle.
  destruct (mount_total p0 win Hp) as [s0 Hm]. rewrite Hm. cbn [bind].
  apply run_total; [| exact Hes].
  apply mount_spec in Hm as (-> & _). exact Hp.
Qed.

Lemma run_hadConnection_mono (es : list Event) (s s' : Session) :
  run es s = Ok s' ->
  hadConnection (state (instance s)) = true ->
  hadConnection (state (instance s')) = true.
Proof.
  intros H Hs.
  apply (run_invariant (fun s => hadConnection (state (instance s)) = true))
    with (es := es) (s := s); [| exact Hs | exact H].
  intros e s1 s2 H1 Hstep. eapply step_hadConnection_mono; eauto.
Qed.

Lemma step_lastUnseenMessageText (e : Event) (s s' : Session) :
  step e s = Ok s' ->
  lastUnseenMessageText (state (instance s')) =
    match e with
    | Tick _ => lastUnseenMessageText (state (instance s))
    | _ =>
        if arrayNeq (unseenMessages (props (instance s)))
             (unseenMessages (props (instance s')))
           && settingOf (props (instance s')) enableUnreadMessagePreview
        then lastUnseenText (items (unseenMessages (props (instance s'))))
        else lastUnseenMessageText (state (instance s))
    end.
Proof.
  destruct e as [p | | h]; cbn [step]; intros H.
  - apply update_spec in H as (Hp & _ & _ & _ & _ & _ & _ & _ & Hl).
    rewrite Hp. exact Hl.
  - apply update_spec in H as (Hp & _ & _ & _ & _ & _ & _ & _ & Hl).
    rewrite Hp. exact Hl.
  - apply tick_spec in H as (_ & Hs & _). rewrite Hs. reflexivity.
Qed.

Lemma run_preview_disabled (es : list Event) (s s' : Session) :
  run es s = Ok s' ->
  forallb (fun p => negb (settingOf p enableUnreadMessagePreview))
    (propsAlong (props (instance s)) es) = true ->
  lastUnseenMessageText (state (instance s')) =
  lastUnseenMessageText (state (instance s)).
Proof.
  revert s. induction es as [| e es IH]; intros s H Hc; simpl in H.
  - injection H as <-. reflexivity.
  - apply bind_Ok in H as (s1 & H1 & H).
    pose proof (step_props e s s1 H1) as Hp.
    pose proof (step_lastUnseenMessageText e s s1 H1) as Hl.
    rewrite (IH s1 H), Hl.
    + rewrite Hp.
      destruct e as [p | | h]; cbn [propsAlong forallb] in Hc;
        try apply andb_prop in Hc as [Hc _]; try reflexivity;
        apply negb_true_iff in Hc; rewrite Hc, andb_false_r; reflexivity.
    + rewrite Hp.
      destruct e as [p | | h]; cbn [propsAlong forallb] in Hc;
        try apply andb_prop in Hc as [_ Hc]; exact Hc.
Qed.

Lemma lastUnseenText_nil : lastUnseenText [] = EmptyString.
Proof. reflexivity. Qed.

Lemma lastUnseenText_last (l : list IMessage) (m : IMessage) :
  lastUnseenText (l ++ [m]) = getTextFromMessage m.
Proof. unfold lastUnseenText. rewrite rev_app_distr. reflexivity. Qed.

(** ** The claims *)

(** C1 (not met by the code). A props object whose config has no settings
    block makes [render], [componentDidMount] and [componentDidUpdate] raise
    a [TypeError] on their first read of [config.settings]; only
    [getDerivedStateFromProps] guards that read and returns [null]. *)
Theorem settings_block_missing_raises (this : WebchatUI) (win : Window)
    (prevProps : WebchatUIProps) (prevState : WebchatUIState) :
  settings (config (props this)) = None ->
  render this = Throw TypeError
  /\ componentDidMount (win, this) = Throw TypeError
  /\ componentDidUpdate prevProps prevState (win, this) = Throw TypeError
  /\ getDerivedStateFromProps (props this) (state this) = None.
Proof.
  intros H.
  unfold render, componentDidMount, componentDidUpdate, getDerivedStateFromProps.
  cbn [setState props]. rewrite H. repeat split; reflexivity.
Qed.

(** C2. The resolved plugin lists are built once, by [componentDidMount]:
    whatever updates and ticks follow, and whatever plugin lists later props
    carry, the message plugins of the state are the host list of the mount
    props (empty when absent) followed by the regular message plugin, and
    the input plugins are the host list followed by the text input plugin;
    so each list ends with the one default entry appended at mount. *)
Theorem resolved_plugins_built_once (p0 : WebchatUIProps) (win : Window)
    (es : list Event) (s : Session) :
  lifecycle p0 win es = Ok s ->
  stMessagePlugins (state (instance s)) =
    hostMessagePlugins p0 ++ [regularMessagePlugin]
  /\ stInputPlugins (state (instance s)) = inputPlugins p0 ++ [textInputPlugin]
  /\ (messagePlugins p0 = None ->
      stMessagePlugins (state (instance s)) = [regularMessagePlugin])
  /\ length (stMessagePlugins (state (instance s))) =
      S (length (hostMessagePlugins p0))
  /\ length (stInputPlugins (state (instance s))) = S (length (inputPlugins p0)).
Proof.
  intros H. apply lifecycle_Ok in H as (s0 & Hm & Hr).
  assert (Hinv : stMessagePlugins (state (instance s)) =
                   hostMessagePlugins p0 ++ [regularMessagePlugin]
                 /\ stInputPlugins (state (instance s)) =
                   inputPlugins p0 ++ [textInputPlugin]).
  { apply (run_invariant
             (fun s => stMessagePlugins (state (instance s)) =
                         hostMessagePlugins p0 ++ [regularMessagePlugin]
                       /\ stInputPlugins (state (instance s)) =
                         inputPlugins p0 ++ [textInputPlugin]))
      with (es := es) (s := s0); [| | exact Hr].
    - intros e s1 s2 [Hmp Hip] Hstep. rewrite <- Hmp, <- Hip.
      destruct e as [p | | h]; cbn [step] in Hstep.
      + apply update_spec in Hstep. tauto.
      + apply update_spec in Hstep. tauto.
      + apply tick_spec in Hstep as (_ & -> & _). auto.
    - apply mount_spec in Hm. tauto. }
  destruct Hinv as [Hmp Hip]. rewrite Hmp, Hip.
  repeat split.
  - intros Hnone. unfold hostMessagePlugins. rewrite Hnone. reflexivity.
  - rewrite length_app. simpl. lia.
  - rewrite length_app. simpl. lia.
Qed.

(** C3. [hadConnection] is a latch: it is false after mounting; once true
    it stays true through every later update and tick, also with
    [connected] false; an update whose props have [connected] true leaves
    it true; and it only turns true in an update whose props have
    [connected] true. *)
Theorem hadConnection_latch (p0 : WebchatUIProps) (win : Window)
    (es : list Event) (s : Session) :
  lifecycle p0 win es = Ok s ->
  (es = [] -> hadConnection (state (instance s)) = false)
  /\ (forall es' s', run es' s = Ok s' ->
        hadConnection (state (instance s)) = true ->
        hadConnection (state (instance s')) = true)
  /\ (forall p s', update p s = Ok s' -> connected p = true ->
        hadConnection (state (instance s')) = true)
  /\ (forall e s', step e s = Ok s' ->
        hadConnection (state (instance s)) = false ->
        hadConnection (state (instance s')) = true ->
        connected (props (instance s')) = true
        /\ forall h, e <> Tick h).
Proof.
  intros H. pose proof (lifecycle_latchConsistent p0 win es s H) as Hlatch.
  split; [| split; [| split]].
  - intros ->. apply lifecycle_Ok in H as (s0 & Hm & Hr).
    injection Hr as <-. apply mount_spec in Hm. tauto.
  - intros es' s' Hr Hs. exact (run_hadConnection_mono es' s s' Hr Hs).
  - intros p s' Hu Hc.
    apply update_spec in Hu as (_ & _ & _ & _ & _ & _ & Hh & _).
    rewrite Hh, Hc. unfold latchConsistent in Hlatch.
    destruct (hadConnection (state (instance s))); [reflexivity |].
    destruct (hadConnection (committed s)); [| reflexivity].
    discriminate Hlatch; reflexivity.
  - intros e s' Hstep Hf Ht.
    apply step_hadConnection in Hstep as [Hh _]. rewrite Hh, Hf in Ht.
    split.
    + destruct e; try discriminate;
        apply andb_prop in Ht as [_ Ht]; exact Ht.
    + intros h ->. discriminate.
Qed.

(** C4. Starting the title indicator is idempotent, and in a lifetime that
    begins with no interval of the component live, at most one interval is
    live at any time: the one whose handle the instance holds. Unmounting
    clears that interval and the handle, and no interval that elapses
    afterwards changes anything, the document title included. *)
Theorem title_indicator_single_interval (p0 : WebchatUIProps) (win : Window)
    (es : list Event) (s : Session) :
  liveIntervals win = [] ->
  lifecycle p0 win es = Ok s ->
  (forall w, initializeTitleIndicator (initializeTitleIndicator w) =
             initializeTitleIndicator w)
  /\ liveIntervals (window s) =
      match unreadTitleIndicatorInterval (instance s) with
      | Some h => [h]
      | None => []
      end
  /\ length (liveIntervals (window s)) <= 1
  /\ liveIntervals (fst (unmount s)) = []
  /\ unreadTitleIndicatorInterval (snd (unmount s)) = None
  /\ (forall hs, fireAll hs (unmount s) = Ok (unmount s))
  /\ (forall hs w, fireAll hs (unmount s) = Ok w ->
        documentTitle (fst w) = documentTitle (window s)).
Proof.
  intros Hwin H.
  pose proof (lifecycle_timerConsistent p0 win es s Hwin H) as Ht.
  destruct (unmount_clears (world s) Ht) as (Hl & Hi & Hd).
  split; [exact initializeTitleIndicator_idempotent |].
  split; [exact Ht |].
  split.
  { unfold window. rewrite Ht.
    destruct (unreadTitleIndicatorInterval (snd (world s))); simpl; lia. }
  split; [exact Hl |]. split; [exact Hi |].
  split.
  - intros hs. apply fireAll_no_intervals. exact Hl.
  - intros hs w Hw. rewrite (fireAll_no_intervals hs (unmount s) Hl) in Hw.
    injection Hw as <-. exact Hd.
Qed.

(** C5. A toggle reads the unseen count of the props in force when it
    runs. In the [unread] phase it restores the captured title. In the
    [original] phase it writes "(N) label" with N the current count only
    when N is greater than zero; when N is zero it writes nothing and the
    document still shows the captured title. *)
Theorem toggle_reads_live_count (p0 : WebchatUIProps) (win : Window)
    (es : list Event) (s : Session) :
  lifecycle p0 win es = Ok s ->
  originalTitle (instance s) = documentTitle win
  /\ (titleType (instance s) = unread ->
      toggleTitleIndicator (world s) =
        Ok (setDocumentTitle (originalTitle (instance s)) (window s),
            setTitleType original (instance s)))
  /\ (titleType (instance s) = original ->
      unseenCount (instance s) = 0 ->
      toggleTitleIndicator (world s) = Ok (world s)
      /\ documentTitle (window s) = originalTitle (instance s))
  /\ (titleType (instance s) = original ->
      0 < unseenCount (instance s) ->
      forall cfg, settings (config (props (instance s))) = Some cfg ->
      toggleTitleIndicator (world s) =
        Ok (setDocumentTitle
              (unreadTitle (unseenCount (instance s)) (unreadMessageTitleText cfg))
              (window s),
            setTitleType unread (instance s))).
Proof.
  intros H. destruct (lifecycle_titleConsistent p0 win es s H) as [Ht Ho].
  unfold titleConsistent, instance, window, unseenCount in *.
  destruct (world s) as [w this]. cbn [fst snd] in *.
  split; [exact Ho |]. unfold toggleTitleIndicator.
  split; [| split].
  - intros ->. reflexivity.
  - intros Hty Hn. rewrite Hty, Hn. cbn. auto.
  - intros Hty Hn cfg Hcfg. rewrite Hty, Hcfg.
    destruct (Nat.ltb_spec 0 (length (items (unseenMessages (props this)))));
      [reflexivity | lia].
Qed.

(** C7, as amended. The disconnect overlay is rendered exactly when the
    widget is active and open, [enableConnectionStatusIndicator] is set,
    [connected] is false and [hadConnection] is true. In every
    lifetime it is absent from every render made while no update has had
    [connected] true; and once an update has had [connected] true, an update
    with [connected] false renders it, given an active, open widget with
    the indicator enabled. *)
Theorem disconnect_overlay_when_open :
  (forall this : WebchatUI,
     rendersTag TDisconnectOverlay this = true <->
     active (config (props this)) = true
     /\ open (props this) = true
     /\ settingOf (props this) enableConnectionStatusIndicator = true
     /\ connected (props this) = false
     /\ hadConnection (state this) = true)
  /\ (forall (p0 : WebchatUIProps) (win : Window) (es : list Event) (s : Session),
       lifecycle p0 win es = Ok s ->
       forallb (fun p => negb (connected p)) (propsAlong p0 es) = true ->
       Forall (fun out => shows TDisconnectOverlay out = false) (outputs s))
  /\ (forall (p0 : WebchatUIProps) (win : Window) (es : list Event) (s : Session)
            (pT pF : WebchatUIProps) (es' : list Event) (s' : Session),
       lifecycle p0 win es = Ok s ->
       connected pT = true ->
       run (SetProps pT :: es' ++ [SetProps pF]) s = Ok s' ->
       active (config pF) = true ->
       open pF = true ->
       settingOf pF enableConnectionStatusIndicator = true ->
       connected pF = false ->
       exists out rest,
         outputs s' = out :: rest /\ shows TDisconnectOverlay out = true).
Proof.
  split; [| split].
  - intros this. unfold settingOf.
    destruct (settings (config (props this))) as [cfg |] eqn:Hcfg.
    + rewrite (render_overlay this cfg Hcfg).
      rewrite !andb_true_iff, negb_true_iff. tauto.
    + unfold rendersTag, render. rewrite Hcfg. cbn [member bind].
      split; [discriminate | intros (_ & _ & H & _); discriminate H].
  - intros p0 win es s H Hc. apply lifecycle_Ok in H as (s0 & Hm & Hr).
    pose proof (mount_spec p0 win s0 Hm)
      as (Hp & _ & _ & _ & _ & _ & Hh & _ & _ & (out & Hout & Hrender)).
    apply (run_never_connected es s0 s Hr Hh); [rewrite Hp; exact Hc |].
    rewrite Hout. constructor; [| constructor].
    destruct (shows TDisconnectOverlay out) eqn:Hs; [| reflexivity].
    apply (render_Ok_overlay _ out Hrender) in Hs as (Hs & _).
    destruct (applyDerivedState_frame (construct p0 win))
      as (_ & _ & _ & _ & _ & _ & Ah & _).
    rewrite Ah in Hs. discriminate Hs.
  - intros p0 win es s pT pF es' s' H HT Hr Ha Ho Hen HF.
    pose proof (lifecycle_latchConsistent p0 win es s H) as Hlatch.
    cbn [run] in Hr. apply bind_Ok in Hr as (s1 & H1 & Hr).
    rewrite run_app in Hr. apply bind_Ok in Hr as (s2 & H2 & Hr).
    cbn [run] in Hr. apply bind_Ok in Hr as (s3 & H3 & Hr).
    injection Hr as <-.
    assert (Hh1 : hadConnection (state (instance s1)) = true).
    { cbn [step] in H1.
      apply update_spec in H1 as (_ & _ & _ & _ & _ & _ & Hh & _).
      rewrite Hh, HT. unfold latchConsistent in Hlatch.
      destruct (hadConnection (state (instance s))); [reflexivity |].
      destruct (hadConnection (committed s)); [| reflexivity].
      discriminate Hlatch; reflexivity. }
    pose proof (run_hadConnection_mono es' s1 s2 H2 Hh1) as Hh2.
    pose proof (step_props _ _ _ H3) as Hp3. cbn in Hp3.
    destruct (step_outputs _ _ _ H3)
      as [Hsame | (this & out & Hout & Hrender & Hp & Hh & _)].
    + cbn [step] in H3. apply update_Ok in H3 as (out & _ & _ & _ & Hout).
      rewrite Hout in Hsame. exfalso.
      apply (f_equal (@length _)) in Hsame. simpl in Hsame. lia.
    + exists out, (outputs s2). split; [exact Hout |].
      destruct (render_Ok_settings this out Hrender) as [cfg Hcfg].
      pose proof (render_overlay this cfg Hcfg) as Hov.
      unfold rendersTag in Hov. rewrite Hrender in Hov. rewrite Hov.
      rewrite Hp, Hp3 in *. unfold settingOf in Hen. rewrite Hcfg in Hen.
      rewrite Ha, Ho, Hen, HF, Hh, Hh2. reflexivity.
Qed.

(** C8. If no update of a lifetime has [enableUnreadMessagePreview] set,
    [lastUnseenMessageText] is the empty string whatever the unseen messages
    are. If an update has it set and brings an [unseenMessages] array of
    another identity, the update succeeds (both props objects having a
    settings block) and leaves in [lastUnseenMessageText] the text of the
    last unseen message, or the empty string when the array is empty. *)
Theorem preview_text_follows_unseen :
  (forall (p0 : WebchatUIProps) (win : Window) (es : list Event) (s : Session),
     lifecycle p0 win es = Ok s ->
     forallb (fun p => negb (settingOf p enableUnreadMessagePreview))
       (propsAlong p0 es) = true ->
     lastUnseenMessageText (state (instance s)) = EmptyString)
  /\ (forall (s : Session) (p : WebchatUIProps),
       hasSettings (props (instance s)) = true ->
       settingOf p enableUnreadMessagePreview = true ->
       arrayNeq (unseenMessages (props (instance s))) (unseenMessages p) = true ->
       exists s',
         update p s = Ok s'
         /\ (items (unseenMessages p) = [] ->
             lastUnseenMessageText (state (instance s')) = EmptyString)
         /\ (forall l m, items (unseenMessages p) = l ++ [m] ->
             lastUnseenMessageText (state (instance s')) = getTextFromMessage m)).
Proof.
  split.
  - intros p0 win es s H Hc. apply lifecycle_Ok in H as (s0 & Hm & Hr).
    pose proof (mount_spec p0 win s0 Hm)
      as (Hp & _ & _ & _ & _ & _ & _ & _ & Hl & _).
    rewrite (run_preview_disabled es s0 s Hr); [exact Hl |].
    rewrite Hp. exact Hc.
  - intros s p Hs Hen Hneq.
    assert (Hp : hasSettings p = true).
    { unfold settingOf in Hen. unfold hasSettings.
      destruct (settings (config p)); [reflexivity | discriminate]. }
    destruct (update_total p s Hs Hp) as [s' Hu]. exists s'.
    split; [exact Hu |].
    apply update_spec in Hu as (_ & _ & _ & _ & _ & _ & _ & _ & Hl).
    rewrite Hneq, Hen in Hl. cbn [andb] in Hl. rewrite Hl. split.
    + intros ->. apply lastUnseenText_nil.
    + intros l m ->. apply lastUnseenText_last.
Qed.

(** C9, as amended. A render of the active, open widget returns a tree with
    exactly one of the two layouts, chosen by [fullscreenMessage] alone: when
    it is set the tree holds the fullscreen message view and neither header,
    history nor input; when it is unset the tree holds header, history and
    input and no fullscreen message view. *)
Theorem layout_selected_by_fullscreenMessage (this : WebchatUI)
    (cfg : IWebchatSettings) :
  settings (config (props this)) = Some cfg ->
  active (config (props this)) = true ->
  open (props this) = true ->
  (exists tree, render this = Ok (Some tree))
  /\ (forall m, fullscreenMessage (props this) = Some m ->
       rendersTag TFullScreenMessage this = true
       /\ rendersTag THeader this = false
       /\ rendersTag THistoryWrapper this = false
       /\ rendersTag TInput this = false)
  /\ (fullscreenMessage (props this) = None ->
       rendersTag TFullScreenMessage this = false
       /\ rendersTag THeader this = true
       /\ rendersTag THistoryWrapper this = true
       /\ rendersTag TInput this = true).
Proof.
  intros Hcfg Ha Ho.
  rewrite (render_fullscreen this cfg Hcfg).
  rewrite !(render_regular this cfg _ Hcfg) by tauto.
  rewrite Ha, Ho. cbn [andb]. split; [| split].
  - destruct (render_total this cfg Hcfg) as (out & Hr & Hnone).
    destruct out as [tree |]; [eauto |].
    destruct Hnone as [Hnone _]. rewrite Hnone in Ha by reflexivity.
    discriminate.
  - intros m ->. cbn. auto.
  - intros ->. cbn. auto.
Qed.

(** C10. With [config.active] false, [render] returns [null] whatever
    [open], [fullscreenMessage], the connection state and the unseen
    messages are: it returns [null] for every config with a settings block,
    and no props object at all makes it return a tree. *)
Theorem inactive_renders_null (this : WebchatUI) :
  active (config (props this)) = false ->
  (forall cfg, settings (config (props this)) = Some cfg ->
     render this = Ok None)
  /\ (forall out, render this = Ok out -> out = None).
Proof.
  intros Ha.
  assert (H : forall cfg, settings (config (props this)) = Some cfg ->
                          render this = Ok None).
  { intros cfg Hcfg. unfold render. rewrite Hcfg, Ha. reflexivity. }
  split; [exact H |].
  intros out Hr. destruct (render_Ok_settings this out Hr) as [cfg Hcfg].
  rewrite (H cfg Hcfg) in Hr. injection Hr as <-. reflexivity.
Qed.

End Properties.

(** * The component on explicit inputs *)

Local Open Scope list_scope.

Example unreadTitle_three :
  unreadTitle 3 (Some "New message") = "(3) New message"%string.
Proof. reflexivity. Qed.

(** One blink cycle of the sample page: three unseen messages, two ticks,
    then the messages are seen and a third tick finds nothing to show. *)
Example title_blink_trace :
  (exists s, lifecycle propsOnlineThree demoWindow [Tick 1] = Ok s
             /\ documentTitle (window s) = "(3) New message"%string)
  /\ (exists s, lifecycle propsOnlineThree demoWindow [Tick 1; Tick 1] = Ok s
               /\ documentTitle (window s) = "Shop"%string)
  /\ (exists s, lifecycle propsOnlineThree demoWindow
                 [Tick 1; Tick 1; SetProps propsOnline; Tick 1] = Ok s
               /\ documentTitle (window s) = "Shop"%string
               /\ titleType (instance s) = original).
Proof.
  repeat split; eexists; (split; [vm_compute; reflexivity |]);
    repeat split; reflexivity.
Qed.

Lemma settings_block_missing_raises_witness :
  render (construct propsWithoutSettings demoWindow) = Throw TypeError
  /\ componentDidMount (demoWindow, construct propsWithoutSettings demoWindow)
     = Throw TypeError
  /\ componentDidUpdate propsOnline initialState
       (demoWindow, construct propsWithoutSettings demoWindow)
     = Throw TypeError
  /\ getDerivedStateFromProps propsWithoutSettings initialState = None.
Proof.
  apply (settings_block_missing_raises
           (construct propsWithoutSettings demoWindow) demoWindow propsOnline
           initialState).
  reflexivity.
Defined.

Lemma resolved_plugins_built_once_witness :
  exists s,
    lifecycle propsOnline demoWindow
      [SetProps propsOtherPlugins; Rerender; Tick 1; SetProps propsOnlineHello]
    = Ok s
    /\ stMessagePlugins (state (instance s)) = ["host-gallery"; "regular-message"]
    /\ stInputPlugins (state (instance s)) = ["host-speech"; "text-input"].
Proof.
  destruct (lifecycle propsOnline demoWindow
              [SetProps propsOtherPlugins; Rerender; Tick 1;
               SetProps propsOnlineHello]) as [s | e] eqn:H;
    [| vm_compute in H; discriminate H].
  exists s. split; [reflexivity |].
  destruct (resolved_plugins_built_once _ _ _ _ H) as (Hm & Hi & _).
  split; [exact Hm | exact Hi].
Defined.

Lemma hadConnection_latch_witness :
  exists s,
    lifecycle propsOffline demoWindow [SetProps propsOnline] = Ok s
    /\ forall s', run [SetProps propsOffline; Rerender] s = Ok s' ->
       hadConnection (state (instance s)) = true ->
       hadConnection (state (instance s')) = true.
Proof.
  destruct (lifecycle propsOffline demoWindow [SetProps propsOnline])
    as [s | e] eqn:H; [| vm_compute in H; discriminate H].
  exists s. split; [reflexivity |].
  destruct (hadConnection_latch _ _ _ _ H) as (_ & Hmono & _).
  exact (Hmono [SetProps propsOffline; Rerender]).
Defined.

Lemma title_indicator_single_interval_witness :
  exists s,
    lifecycle propsOnline demoWindow
      [Rerender; SetProps propsPlain; SetProps propsOnlineThree; Tick 1]
    = Ok s
    /\ length (liveIntervals (window s)) <= 1
    /\ liveIntervals (fst (unmount s)) = []
    /\ forall hs, fireAll hs (unmount s) = Ok (unmount s).
Proof.
  destruct (lifecycle propsOnline demoWindow
              [Rerender; SetProps propsPlain; SetProps propsOnlineThree; Tick 1])
    as [s | e] eqn:H; [| vm_compute in H; discriminate H].
  exists s. split; [reflexivity |].
  destruct (title_indicator_single_interval propsOnline demoWindow _ s eq_refl H)
    as (_ & _ & Hlen & Hl & _ & Hf & _).
  split; [exact Hlen | split; [exact Hl | exact Hf]].
Defined.

Lemma toggle_reads_live_count_witness :
  exists s,
    lifecycle propsOnlineThree demoWindow
      [Tick 1; Tick 1; SetProps propsOnline] = Ok s
    /\ (titleType (instance s) = original ->
        unseenCount (instance s) = 0 ->
        toggleTitleIndicator (world s) = Ok (world s)
        /\ documentTitle (window s) = originalTitle (instance s)).
Proof.
  destruct (lifecycle propsOnlineThree demoWindow
              [Tick 1; Tick 1; SetProps propsOnline])
    as [s | e] eqn:H; [| vm_compute in H; discriminate H].
  exists s. split; [reflexivity |].
  destruct (toggle_reads_live_count _ _ _ _ H) as (_ & _ & Hzero & _).
  exact Hzero.
Defined.

(** C6 (not met by the code). [render] never looks at [open] when it
    decides on the teaser. After an update that delivers one unseen message
    to an open widget with the preview enabled, the next render shows the
    teaser bubble next to the open panel. And when a closed widget that
    shows the teaser is opened, the render of that update still shows it,
    even though the same props empty the unseen messages. *)
Theorem teaser_rendered_while_open :
  (exists s out rest,
     lifecycle propsOnline demoWindow [SetProps propsOnlineHello; Rerender] = Ok s
     /\ outputs s = out :: rest
     /\ open (props (instance s)) = true
     /\ shows TWebchatRoot out = true
     /\ shows TMessageTeaser out = true)
  /\ (exists s out rest,
       lifecycle propsClosed demoWindow
         [SetProps propsClosedHello; Rerender; SetProps propsOnline] = Ok s
       /\ outputs s = out :: rest
       /\ open (props (instance s)) = true
       /\ items (unseenMessages (props (instance s))) = []
       /\ shows TWebchatRoot out = true
       /\ shows TMessageTeaser out = true).
Proof.
  split.
  - destruct (lifecycle propsOnline demoWindow
                [SetProps propsOnlineHello; Rerender])
      as [s | e] eqn:H; [| vm_compute in H; discriminate H].
    vm_compute in H. injection H as <-.
    eexists _, _, _. repeat split.
  - destruct (lifecycle propsClosed demoWindow
                [SetProps propsClosedHello; Rerender; SetProps propsOnline])
      as [s | e] eqn:H; [| vm_compute in H; discriminate H].
    vm_compute in H. injection H as <-.
    eexists _, _, _. repeat split.
Qed.

(** C7 as first stated fails on a closed widget: with the indicator
    enabled, [connected] false and [hadConnection] true, nothing of the
    overlay is rendered while [open] is false. *)
Lemma disconnect_overlay_absent_when_closed :
  ~ (rendersTag TDisconnectOverlay closedOfflineInstance = true
     <-> settingOf (props closedOfflineInstance) enableConnectionStatusIndicator
         = true
         /\ connected (props closedOfflineInstance) = false
         /\ hadConnection (state closedOfflineInstance) = true).
Proof.
  intros [_ H].
  assert (Hshown : rendersTag TDisconnectOverlay closedOfflineInstance = true).
  { apply H. repeat split. }
  vm_compute in Hshown. discriminate Hshown.
Qed.

Lemma disconnect_overlay_when_open_witness :
  rendersTag TDisconnectOverlay offlineInstance = true
  /\ exists s s' out rest,
       lifecycle propsOffline demoWindow [Rerender] = Ok s
       /\ run (SetProps propsOnline :: [Rerender] ++ [SetProps propsOffline]) s
          = Ok s'
       /\ outputs s' = out :: rest
       /\ shows TDisconnectOverlay out = true.
Proof.
  destruct (@disconnect_overlay_when_open demoEnv) as (Hiff & _ & Happears).
  split.
  - apply (Hiff offlineInstance). repeat split; reflexivity.
  - destruct (lifecycle propsOffline demoWindow [Rerender])
      as [s | e] eqn:H; [| vm_compute in H; discriminate H].
    destruct (run (SetProps propsOnline :: [Rerender] ++ [SetProps propsOffline]) s)
      as [s' | e] eqn:H';
      [| vm_compute in H; injection H as <-; vm_compute in H'; discriminate H'].
    destruct (Happears propsOffline demoWindow [Rerender] s propsOnline
                propsOffline [Rerender] s' H eq_refl H' eq_refl eq_refl
                eq_refl eq_refl) as (out & rest & Hout & Hshow).
    exists s, s', out, rest. repeat split; assumption.
Defined.

Lemma preview_text_follows_unseen_witness :
  (exists s,
     lifecycle propsPlain demoWindow [Rerender; Tick 1] = Ok s
     /\ lastUnseenMessageText (state (instance s)) = EmptyString)
  /\ exists s',
       update propsOnlineHello onlineSession = Ok s'
       /\ lastUnseenMessageText (state (instance s')) = "Hello"%string.
Proof.
  destruct (@preview_text_follows_unseen demoEnv) as (Hoff & Hrecomputed).
  split.
  - destruct (lifecycle propsPlain demoWindow [Rerender; Tick 1])
      as [s | e] eqn:H; [| vm_compute in H; discriminate H].
    exists s. split; [reflexivity |].
    exact (Hoff propsPlain demoWindow [Rerender; Tick 1] s H eq_refl).
  - destruct (Hrecomputed onlineSession propsOnlineHello
                eq_refl eq_refl eq_refl) as (s' & Hu & _ & Hlast).
    exists s'. split; [exact Hu |].
    exact (Hlast [] "Hello"%string eq_refl).
Defined.

(** C9 as first stated fails on an inactive widget: with [open] true and
    a fullscreen message set, but [config.active] false, [render] returns
    [null] and neither layout is produced. *)
Lemma layout_absent_when_inactive :
  open (props inactiveInstance) = true
  /\ fullscreenMessage (props inactiveInstance) = Some "Hi"%string
  /\ render inactiveInstance = Ok None
  /\ ~ (open (props inactiveInstance) = true ->
        (forall m, fullscreenMessage (props inactiveInstance) = Some m ->
           rendersTag TFullScreenMessage inactiveInstance = true
           /\ rendersTag THeader inactiveInstance = false
           /\ rendersTag THistoryWrapper inactiveInstance = false
           /\ rendersTag TInput inactiveInstance = false)
        /\ (fullscreenMessage (props inactiveInstance) = None ->
            rendersTag TFullScreenMessage inactiveInstance = false
            /\ rendersTag THeader inactiveInstance = true
            /\ rendersTag THistoryWrapper inactiveInstance = true
            /\ rendersTag TInput inactiveInstance = true)).
Proof.
  split; [reflexivity |]. split; [reflexivity |]. split; [reflexivity |].
  intros H. destruct (H eq_refl) as [Hset _].
  destruct (Hset "Hi"%string eq_refl) as [Hshown _].
  vm_compute in Hshown. discriminate Hshown.
Qed.

Lemma layout_selected_by_fullscreenMessage_witness :
  rendersTag TFullScreenMessage fullscreenInstance = true
  /\ rendersTag THeader fullscreenInstance = false
  /\ rendersTag THistoryWrapper fullscreenInstance = false
  /\ rendersTag TInput fullscreenInstance = false.
Proof.
  destruct (layout_selected_by_fullscreenMessage
              fullscreenInstance allFeatures
              eq_refl eq_refl eq_refl) as (_ & Hset & _).
  exact (Hset "Hi"%string eq_refl).
Defined.

Lemma inactive_renders_null_witness :
  render inactiveInstance = Ok None.
Proof.
  destruct (inactive_renders_null inactiveInstance
              eq_refl) as (Hnull & _).
  exact (Hnull allFeatures eq_refl).
Defined.

(** * Further properties of the component *)

Section Further.

Context {env : Collaborators}.

Local Open Scope list_scope.

Lemma flat_map_elements_messages (ps : list MessagePlugin) (ms : list IMessage)
    (rest : list VNode) :
  flat_map elements
    (map (fun message => Element (MessagePluginRenderer message ps) []) ms ++ rest)
  = map (fun message => MessagePluginRenderer message ps) ms
    ++ flat_map elements rest.
Proof.
  induction ms as [| m ms IH]; cbn [map app flat_map elements]; [reflexivity |].
  rewrite IH. reflexivity.
Qed.

Lemma elements_renderHistory (this : WebchatUI) :
  elements (renderHistory this) =
    Fragment
    :: map (fun message =>
              MessagePluginRenderer message (stMessagePlugins (state this)))
         (messages (props this))
    ++ (if String.eqb (typingIndicator (props this)) "remove" then []
        else [MessageRow (String.eqb (typingIndicator (props this)) "hide");
              TypingIndicatorBubble]).
Proof.
  unfold renderHistory. cbn [elements]. rewrite flat_map_elements_messages.
  destruct (typingIndicator (props this) =? "remove")%string; reflexivity.
Qed.

(** The elements of the tree [render] returns, spelled out. *)
Lemma render_elements (this : WebchatUI) (cfg : IWebchatSettings) :
  settings (config (props this)) = Some cfg ->
  active (config (props this)) = true ->
  exists tree,
    render this = Ok (Some tree)
    /\ elements tree =
       [Fragment; ThemeProvider (theme (state this)); Fragment; WebchatWrapper;
        CacheProvider]
       ++ (if open (props this) then
             WebchatRoot
             :: match fullscreenMessage (props this) with
                | None =>
                    [Fragment;
                     Header true (headerLogoUrl cfg)
                       (match title cfg with
                        | Some t => if truthyStr t then t else "Cognigy Webchat"
                        | None => "Cognigy Webchat"
                        end);
                     HistoryWrapper (disableBranding cfg)]
                    ++ elements (renderHistory this)
                    ++ [Input (stInputPlugins (state this))
                          (inputMode (props this))]
                | Some m =>
                    [FullScreenMessage (Some m) (stMessagePlugins (state this))]
                end
             ++ (if truthy (enableConnectionStatusIndicator cfg)
                    && negb (connected (props this))
                    && hadConnection (state this)
                 then [DisconnectOverlay (reconnectionLimit (props this))]
                 else [])
           else [])
       ++ (if truthy (disableToggleButton cfg) then []
           else
             Div
             :: (if truthyStr (lastUnseenMessageText (state this))
                 then [MessageTeaser] else [])
             ++ FAB
             :: (if open (props this) then CloseIcon else ChatIcon)
             :: (if truthy (enableUnreadMessageBadge cfg)
                 then [Badge (length (items (unseenMessages (props this))))]
                 else [])).
Proof.
  intros Hcfg Ha.
  unfold render, renderRegularLayout, renderFullscreenMessageLayout, renderInput.
  rewrite Hcfg, Ha. cbn [member bind negb].
  destruct (open (props this)),
    (fullscreenMessage (props this)) as [m |] eqn:Hm,
    (truthy (disableToggleButton cfg)),
    (truthy (enableConnectionStatusIndicator cfg) && negb (connected (props this))
     && hadConnection (state this)),
    (truthyStr (lastUnseenMessageText (state this))),
    (truthy (enableUnreadMessageBadge cfg));
    cbn -[renderHistory]; eexists; (split; [reflexivity |]);
    cbn -[renderHistory]; rewrite ?app_nil_r, ?Hm, ?Ha; reflexivity.
Qed.

Lemma renderedMessages_map (ps : list MessagePlugin) (ms : list IMessage) :
  renderedMessages (map (fun message => MessagePluginRenderer message ps) ms) = ms.
Proof.
  unfold renderedMessages.
  induction ms as [| m ms IH]; cbn [map flat_map app]; [| rewrite IH]; reflexivity.
Qed.

Lemma messagePluginsHanded_map (ps : list MessagePlugin) (ms : list IMessage) :
  messagePluginsHanded (map (fun message => MessagePluginRenderer message ps) ms)
  = map (fun _ => ps) ms.
Proof.
  unfold messagePluginsHanded.
  induction ms as [| m ms IH]; cbn [map flat_map app]; [| rewrite IH]; reflexivity.
Qed.

Lemma flat_map_no_renderer {B : Type} (f : Component -> list B)
    (ps : list MessagePlugin) (ms : list IMessage) :
  (forall m, f (MessagePluginRenderer m ps) = []) ->
  flat_map f (map (fun message => MessagePluginRenderer message ps) ms) = [].
Proof.
  intros Hf. induction ms as [| m ms IH]; cbn [map flat_map]; [reflexivity |].
  rewrite Hf, IH. reflexivity.
Qed.

Lemma hasTag_app (t : Tag) (l l' : list Component) :
  hasTag t (l ++ l') = hasTag t l || hasTag t l'.
Proof. apply existsb_app. Qed.

Lemma hasTag_renderers (t : Tag) (ps : list MessagePlugin) (ms : list IMessage) :
  tagEqb TMessagePluginRenderer t = false ->
  hasTag t (map (fun message => MessagePluginRenderer message ps) ms) = false.
Proof.
  intros Ht. unfold hasTag.
  induction ms as [| m ms IH]; cbn [map existsb tagOf]; [reflexivity |].
  rewrite Ht, IH. reflexivity.
Qed.

(** Case analysis on a successful [render]: the settings block [cfg] is
    there, and the output is [null] or the tree of [render_elements]. *)
Ltac read_render this out Hr cfg Hcfg Ha :=
  destruct (render_Ok_settings this out Hr) as [cfg Hcfg];
  destruct (active (config (props this))) eqn:Ha;
  [ let tree := fresh "tree" in
    let Ht := fresh "Ht" in
    let He := fresh "He" in
    destruct (render_elements this cfg Hcfg Ha) as (tree & Ht & He);
    rewrite Ht in Hr; injection Hr as <-; cbn [outElements]; rewrite He
  | unfold render in Hr; rewrite Hcfg, Ha in Hr; cbn in Hr;
    injection Hr as <-; cbn [outElements] ].

(** X1. The history shows the messages of the props, each once and in
    their order, when the widget is active and open without a fullscreen
    message; otherwise no message renderer is in the output. *)
Theorem history_renders_messages_in_order (this : WebchatUI)
    (out : option VNode) :
  render this = Ok out ->
  renderedMessages (outElements out) =
    if active (config (props this)) && open (props this)
       && negb (isSet (fullscreenMessage (props this)))
    then messages (props this)
    else [].
Proof.
  intros Hr. read_render this out Hr cfg Hcfg Ha; [| reflexivity].
  rewrite elements_renderHistory. unfold renderedMessages.
  destruct (open (props this)), (fullscreenMessage (props this)),
    (truthy (disableToggleButton cfg)),
    (truthy (enableConnectionStatusIndicator cfg) && negb (connected (props this))
     && hadConnection (state this)),
    (truthyStr (lastUnseenMessageText (state this))),
    (truthy (enableUnreadMessageBadge cfg)),
    (typingIndicator (props this) =? "remove")%string;
    cbn [andb negb isSet app flat_map]; rewrite ?flat_map_app;
    fold (renderedMessages
            (map (fun message =>
                    MessagePluginRenderer message (stMessagePlugins (state this)))
               (messages (props this))));
    rewrite ?renderedMessages_map; cbn [flat_map app];
    rewrite ?app_nil_r; reflexivity.
Qed.

Lemma hasTag_cons (t : Tag) (c : Component) (l : list Component) :
  hasTag t (c :: l) = tagEqb (tagOf c) t || hasTag t l.
Proof. reflexivity. Qed.

Lemma hasTag_nil (t : Tag) : hasTag t [] = false.
Proof. reflexivity. Qed.

Ltac render_flags this cfg :=
  destruct (open (props this)), (fullscreenMessage (props this)),
    (truthy (disableToggleButton cfg)),
    (truthy (enableConnectionStatusIndicator cfg) && negb (connected (props this))
     && hadConnection (state this)),
    (truthyStr (lastUnseenMessageText (state this))),
    (truthy (enableUnreadMessageBadge cfg)),
    (typingIndicator (props this) =? "remove")%string.

Lemma existsb_tag_renderers (t : Tag) (ps : list MessagePlugin)
    (ms : list IMessage) :
  tagEqb TMessagePluginRenderer t = false ->
  existsb (fun c => tagEqb (tagOf c) t)
    (map (fun message => MessagePluginRenderer message ps) ms) = false.
Proof. apply hasTag_renderers. Qed.

Ltac read_tags :=
  unfold hasTag; cbn [existsb app tagOf tagEqb orb andb negb];
  rewrite ?existsb_app, ?existsb_tag_renderers by reflexivity;
  cbn [existsb app tagOf tagEqb orb andb negb].

(** X2. The toggle button is rendered exactly when the widget is active
    and [disableToggleButton] is not set; it shows the close icon when the
    widget is open and the chat icon when it is closed, never both. *)
Theorem toggle_button_and_icons (this : WebchatUI) (out : option VNode) :
  render this = Ok out ->
  let shown :=
    active (config (props this))
    && negb (settingOf (props this) disableToggleButton) in
  hasTag TFAB (outElements out) = shown
  /\ hasTag TCloseIcon (outElements out) = shown && open (props this)
  /\ hasTag TChatIcon (outElements out) = shown && negb (open (props this)).
Proof.
  intros Hr shown. subst shown. unfold settingOf.
  read_render this out Hr cfg Hcfg Ha; rewrite Hcfg;
    [| repeat split; reflexivity].
  rewrite elements_renderHistory.
  render_flags this cfg; read_tags; repeat split; reflexivity.
Qed.

(** X3. While the widget is closed nothing of the panel is rendered: no
    root, header, history, input, message renderer, fullscreen view or
    disconnect overlay, whatever the messages and the connection state
    are; the root is rendered exactly when the widget is active and
    open. *)
Theorem closed_widget_renders_no_panel (this : WebchatUI) (out : option VNode) :
  render this = Ok out ->
  hasTag TWebchatRoot (outElements out) =
    active (config (props this)) && open (props this)
  /\ (open (props this) = false ->
      forall t,
        In t [TWebchatRoot; THeader; THistoryWrapper; TInput;
              TMessagePluginRenderer; TTypingIndicatorBubble;
              TFullScreenMessage; TDisconnectOverlay] ->
        hasTag t (outElements out) = false).
Proof.
  intros Hr.
  read_render this out Hr cfg Hcfg Ha;
    [| split; [reflexivity | intros _ t _; reflexivity]].
  rewrite elements_renderHistory. split.
  - render_flags this cfg; read_tags; reflexivity.
  - intros ->. cbn [app]. intros t Hin.
    cbn [In] in Hin.
    destruct (truthy (disableToggleButton cfg)),
      (truthyStr (lastUnseenMessageText (state this))),
      (truthy (enableUnreadMessageBadge cfg));
      repeat (destruct Hin as [<- | Hin]; [reflexivity |]); contradiction.
Qed.

(** X4. The badge is rendered exactly when the widget is active, the
    toggle button is not disabled and [enableUnreadMessageBadge] is set,
    open or closed; its content is the number of unseen messages of the
    props, zero included. *)
Theorem badge_shows_unseen_count (this : WebchatUI) (out : option VNode) :
  render this = Ok out ->
  badgeContents (outElements out) =
    if active (config (props this))
       && negb (settingOf (props this) disableToggleButton)
       && settingOf (props this) enableUnreadMessageBadge
    then [unseenCount this]
    else [].
Proof.
  intros Hr. unfold settingOf, unseenCount.
  read_render this out Hr cfg Hcfg Ha; rewrite Hcfg; [| reflexivity].
  rewrite elements_renderHistory. unfold badgeContents.
  render_flags this cfg; cbn [andb negb app flat_map];
    rewrite ?flat_map_app, ?flat_map_no_renderer by reflexivity;
    reflexivity.
Qed.

(** X5. The typing indicator row is part of the history unless
    [typingIndicator] is 'remove', and it is hidden exactly when
    [typingIndicator] is 'hide'; any other value shows it. *)
Theorem typing_indicator_row (this : WebchatUI) (out : option VNode) :
  render this = Ok out ->
  messageRowsHidden (outElements out) =
    if active (config (props this)) && open (props this)
       && negb (isSet (fullscreenMessage (props this)))
       && negb (String.eqb (typingIndicator (props this)) "remove")
    then [String.eqb (typingIndicator (props this)) "hide"]
    else [].
Proof.
  intros Hr.
  read_render this out Hr cfg Hcfg Ha; [| reflexivity].
  rewrite elements_renderHistory. unfold messageRowsHidden.
  render_flags this cfg; cbn [andb negb isSet app flat_map];
    rewrite ?flat_map_app, ?flat_map_no_renderer by reflexivity;
    reflexivity.
Qed.

(** X6. Every header of the output is told [connected = true], whatever
    the [connected] prop is, and its title is never empty: the configured
    title when that is a non-empty string, 'Cognigy Webchat' otherwise. *)
Theorem header_title_and_connected (this : WebchatUI) (out : option VNode)
    (b : bool) (t : string) :
  render this = Ok out ->
  In (b, t) (headerProps (outElements out)) ->
  b = true
  /\ t <> EmptyString
  /\ exists cfg,
       settings (config (props this)) = Some cfg
       /\ t = match title cfg with
              | Some t0 => if truthyStr t0 then t0 else "Cognigy Webchat"%string
              | None => "Cognigy Webchat"%string
              end.
Proof.
  intros Hr. read_render this out Hr cfg Hcfg Ha; [| intros []].
  rewrite elements_renderHistory. unfold headerProps.
  intros Hin.
  assert (H : (b, t) =
              (true,
               match title cfg with
               | Some t0 => if truthyStr t0 then t0 else "Cognigy Webchat"%string
               | None => "Cognigy Webchat"%string
               end)).
  { revert Hin.
    render_flags this cfg; cbn [andb negb isSet app flat_map];
      rewrite ?flat_map_app, ?flat_map_no_renderer by reflexivity;
      cbn [flat_map app In]; intros Hin;
      repeat (destruct Hin as [Hin | Hin]; [symmetry; exact Hin |]);
      contradiction. }
  injection H as -> ->. split; [reflexivity |]. split.
  - destruct (title cfg) as [t0 |]; [| discriminate].
    destruct t0; cbn; discriminate.
  - exists cfg. auto.
Qed.

(** X7. [render] hands [ThemeProvider] the theme of the state, and React
    renders the state [getDerivedStateFromProps] has derived. So, as long
    as the theme factory gives a theme the primary colour it was asked for,
    every render under a non-empty [colorScheme] is themed in that colour,
    whatever theme the state held before. *)
Theorem rendered_theme_follows_colorScheme (this : WebchatUI)
    (cfg : IWebchatSettings) (c : string) (out : option VNode) :
  (forall c', primaryColor (createWebchatTheme (Some (Some c'))) = c') ->
  settings (config (props this)) = Some cfg ->
  colorScheme cfg = Some c ->
  c <> EmptyString ->
  render (applyDerivedState this) = Ok out ->
  primaryColor (theme (state (applyDerivedState this))) = c
  /\ themesProvided (outElements out) =
      if active (config (props this))
      then [theme (state (applyDerivedState this))]
      else [].
Proof.
  intros Hlaw Hcfg Hc Hne Hr. split.
  - unfold applyDerivedState, getDerivedStateFromProps. rewrite Hcfg, Hc.
    destruct c as [| a c]; [contradiction |]. cbn [truthyStr andb].
    destruct (String.eqb_spec (String a c) (primaryColor (theme (state this))))
      as [Heq | Hneq]; cbn [negb].
    + symmetry. exact Heq.
    + cbn. apply Hlaw.
  - destruct (applyDerivedState_frame this) as (Ap & _).
    remember (applyDerivedState this) as this' eqn:Hthis.
    rewrite <- Ap.
    read_render this' out Hr cfg' Hcfg' Ha; [| reflexivity].
    rewrite elements_renderHistory. unfold themesProvided.
    render_flags this' cfg'; cbn [app flat_map];
      rewrite ?flat_map_app, ?flat_map_no_renderer by reflexivity;
      reflexivity.
Qed.

(** X8. [getDerivedStateFromProps] leaves the state alone when the config
    has no settings block, no [colorScheme] or an empty one; and when the
    theme factory gives a theme the primary colour it was asked for,
    deriving the state a second time changes nothing, so the theme is built
    once per colour and not at every render. *)
Theorem derived_state_is_stable (this : WebchatUI) :
  ((forall cfg c, settings (config (props this)) = Some cfg ->
                  colorScheme cfg = Some c -> c = EmptyString) ->
   getDerivedStateFromProps (props this) (state this) = None)
  /\ ((forall c, primaryColor (createWebchatTheme (Some (Some c))) = c) ->
      getDerivedStateFromProps (props (applyDerivedState this))
        (state (applyDerivedState this)) = None
      /\ applyDerivedState (applyDerivedState this) = applyDerivedState this).
Proof.
  split.
  - intros Hnone. unfold getDerivedStateFromProps.
    destruct (settings (config (props this))) as [cfg |]; [| reflexivity].
    destruct (colorScheme cfg) as [c |] eqn:Hc; [| reflexivity].
    rewrite (Hnone cfg c eq_refl Hc). reflexivity.
  - intros Hlaw.
    assert (H : getDerivedStateFromProps (props (applyDerivedState this))
                  (state (applyDerivedState this)) = None).
    { unfold applyDerivedState.
      destruct (getDerivedStateFromProps (props this) (state this))
        as [st |] eqn:Hd; [| exact Hd].
      cbn [setState props state]. revert Hd.
      unfold getDerivedStateFromProps.
      destruct (settings (config (props this))) as [cfg |]; [| discriminate].
      destruct (colorScheme cfg) as [c |]; [| discriminate].
      destruct (truthyStr c
                && negb (c =? primaryColor (theme (state this)))%string) eqn:Hb;
        [| discriminate].
      intros Hd. injection Hd as <-. cbn [withTheme theme].
      rewrite Hlaw, String.eqb_refl, andb_false_r. reflexivity. }
    split; [exact H |].
    unfold applyDerivedState at 1. rewrite H. reflexivity.
Qed.

(** ** Sounds *)

Lemma componentDidUpdate_sound (prevProps : WebchatUIProps)
    (prevState : WebchatUIState) (win : Window) (this : WebchatUI) (w' : World) :
  componentDidUpdate prevProps prevState (win, this) = Ok w' ->
  soundsPlayed (fst w') =
    soundsPlayed win + (if playsSound prevProps (props this) then 1 else 0).
Proof.
  unfold componentDidUpdate, playsSound, settingOf.
  destruct (settings (config (props this))) as [cfg |] eqn:Hcfg;
    [| simpl; discriminate].
  destruct (settings (config prevProps)) as [prevCfg |] eqn:Hprev;
    [| simpl; discriminate].
  cbn [member bind].
  destruct (strictNeqStr (colorScheme cfg) (colorScheme prevCfg));
  cbn [setState props state];
  destruct (negb (hadConnection prevState) && connected (props this));
  cbn [setState props state];
  destruct (arrayNeq (unseenMessages prevProps) (unseenMessages (props this)));
  cbn [setState props state bind member andb]; rewrite ?Hcfg;
  cbn [member bind];
  destruct (truthy (enableUnreadMessagePreview cfg));
  cbn [setState props state bind member andb];
  destruct (0 <? length (items (unseenMessages (props this))))%nat;
  cbn [setState props state bind member andb]; rewrite ?Hcfg;
  cbn [member bind];
  destruct (truthy (enableUnreadMessageSound cfg));
  cbn [setState props state bind member andb snd]; rewrite ?Hcfg;
  cbn [member bind];
  destruct (truthy (enableUnreadMessageTitleIndicator cfg));
  cbn [setState props state bind member andb snd];
  try (destruct (strictNeqBool (enableUnreadMessageTitleIndicator cfg)
                   (enableUnreadMessageTitleIndicator prevCfg)));
  intros H; injection H as <-;
  unfold initializeTitleIndicator, setInterval;
  try (destruct (unreadTitleIndicatorInterval this));
  cbn; lia.
Qed.

Lemma step_soundsPlayed (e : Event) (s s' : Session) :
  step e s = Ok s' ->
  soundsPlayed (window s') =
    soundsPlayed (window s)
    + match e with
      | SetProps p => if playsSound (props (instance s)) p then 1 else 0
      | _ => 0
      end.
Proof.
  assert (Hupd : forall p, update p s = Ok s' ->
            soundsPlayed (window s') =
              soundsPlayed (window s)
              + (if playsSound (props (instance s)) p then 1 else 0)).
  { intros p H. apply update_Ok in H as (out & _ & Hu & _).
    destruct (world s') as [win' this'] eqn:Hw'.
    apply componentDidUpdate_sound in Hu.
    destruct (applyDerivedState_frame (setProps p (instance s))) as (Ap & _).
    rewrite Ap in Hu. cbn [setProps props fst] in Hu.
    unfold window. rewrite Hw'. exact Hu. }
  destruct e as [p | | h]; cbn [step]; intros H.
  - apply Hupd. exact H.
  - rewrite (Hupd _ H). unfold playsSound, arrayNeq.
    rewrite Nat.eqb_refl. reflexivity.
  - apply bind_Ok in H as (w & Hf & H). injection H as <-.
    unfold window. cbn [world]. unfold fire in Hf.
    destruct (existsb (Pos.eqb h) (liveIntervals (fst (world s)))).
    + destruct (world s) as [win this]. unfold toggleTitleIndicator in Hf.
      destruct (titleType this);
        [destruct (0 <? length (items (unseenMessages (props this))))%nat;
         [destruct (settings (config (props this))); [| discriminate] |] |];
        cbn in Hf; injection Hf as <-; cbn; lia.
    + injection Hf as <-. lia.
Qed.

Lemma run_soundsPlayed (es : list Event) (s s' : Session) :
  run es s = Ok s' ->
  soundsPlayed (window s') =
    soundsPlayed (window s) + soundUpdates (props (instance s)) es.
Proof.
  revert s. induction es as [| e es IH]; intros s H; simpl in H.
  - injection H as <-. cbn. lia.
  - apply bind_Ok in H as (s1 & H1 & H).
    rewrite (IH s1 H), (step_soundsPlayed e s s1 H1), (step_props e s s1 H1).
    destruct e; cbn [soundUpdates]; lia.
Qed.

Lemma mount_soundsPlayed (p0 : WebchatUIProps) (win : Window) (s : Session) :
  mount p0 win = Ok s -> soundsPlayed (window s) = soundsPlayed win.
Proof.
  intros H. apply mount_Ok in H as (out & _ & Hm & _).
  unfold window. revert Hm. generalize (world s) as w.
  generalize (applyDerivedState (construct p0 win)) as this.
  intros this w. unfold componentDidMount. cbn [setState props].
  destruct (settings (config (props this))) as [cfg |]; [| discriminate].
  cbn [member bind].
  destruct (truthy (enableUnreadMessageTitleIndicator cfg)); intros H;
    injection H as <-; [| reflexivity].
  unfold initializeTitleIndicator, setInterval. cbn [setState].
  destruct (unreadTitleIndicatorInterval this); reflexivity.
Qed.

(** X9. The notification sound is played once for each update that brings
    an [unseenMessages] array of another identity with at least one item
    while [enableUnreadMessageSound] is set, however many items there are;
    mounting, re-renders with unchanged props and ticks never play it. *)
Theorem sound_once_per_unseen_update (p0 : WebchatUIProps) (win : Window)
    (es : list Event) (s : Session) :
  lifecycle p0 win es = Ok s ->
  soundsPlayed (window s) = soundsPlayed win + soundUpdates p0 es.
Proof.
  intros H. apply lifecycle_Ok in H as (s0 & Hm & Hr).
  rewrite (run_soundsPlayed es s0 s Hr), (mount_soundsPlayed p0 win s0 Hm).
  apply mount_spec in Hm as (-> & _). reflexivity.
Qed.

Lemma soundUpdates_same_array (a : JSArray IMessage) (es : list Event)
    (cur : WebchatUIProps) :
  forallb (sameUnseenArray a) es = true ->
  ref (unseenMessages cur) = ref a ->
  soundUpdates cur es = 0.
Proof.
  revert cur. induction es as [| e es IH]; intros cur Hes Hcur; [reflexivity |].
  cbn [forallb] in Hes. apply andb_prop in Hes as [He Hes].
  destruct e as [p | | h]; cbn [soundUpdates sameUnseenArray] in *; auto.
  apply Nat.eqb_eq in He.
  rewrite (IH p Hes) by (symmetry; exact He).
  unfold playsSound, arrayNeq. rewrite Hcur, He, Nat.eqb_refl. reflexivity.
Qed.

Lemma run_same_array (a : JSArray IMessage) (es : list Event) (s s' : Session) :
  run es s = Ok s' ->
  forallb (sameUnseenArray a) es = true ->
  ref (unseenMessages (props (instance s))) = ref a ->
  lastUnseenMessageText (state (instance s')) =
  lastUnseenMessageText (state (instance s)).
Proof.
  revert s. induction es as [| e es IH]; intros s H Hes Hcur; simpl in H.
  - injection H as <-. reflexivity.
  - apply bind_Ok in H as (s1 & H1 & H).
    cbn [forallb] in Hes. apply andb_prop in Hes as [He Hes].
    pose proof (step_props e s s1 H1) as Hp.
    pose proof (step_lastUnseenMessageText e s s1 H1) as Hl.
    assert (Href : ref (unseenMessages (props (instance s1))) = ref a).
    { rewrite Hp. destruct e as [p | | h]; cbn [sameUnseenArray] in He;
        try exact Hcur. apply Nat.eqb_eq in He. symmetry. exact He. }
    rewrite (IH s1 H Hes Href), Hl.
    destruct e as [p | | h]; try reflexivity;
      unfold arrayNeq; rewrite Hcur, Href, Nat.eqb_refl; reflexivity.
Qed.

(** X10. Unseen messages that are already in the props at mount are
    ignored: as long as the props keep carrying the same [unseenMessages]
    array, whatever its items, and whichever features are enabled, the
    preview text stays empty and no sound is played. Both wait for an array
    of another identity. *)
Theorem unseen_at_mount_needs_new_array (p0 : WebchatUIProps) (win : Window)
    (es : list Event) (s : Session) :
  lifecycle p0 win es = Ok s ->
  forallb (sameUnseenArray (unseenMessages p0)) es = true ->
  lastUnseenMessageText (state (instance s)) = EmptyString
  /\ soundsPlayed (window s) = soundsPlayed win.
Proof.
  intros H Hes. apply lifecycle_Ok in H as (s0 & Hm & Hr).
  pose proof (mount_soundsPlayed p0 win s0 Hm) as Hsound.
  pose proof (mount_spec p0 win s0 Hm)
    as (Hp & _ & _ & _ & _ & _ & _ & _ & Hl & _).
  split.
  - rewrite (run_same_array (unseenMessages p0) es s0 s Hr Hes); [exact Hl |].
    rewrite Hp. reflexivity.
  - rewrite (run_soundsPlayed es s0 s Hr), Hsound, Hp.
    rewrite (soundUpdates_same_array (unseenMessages p0) es p0 Hes eq_refl).
    lia.
Qed.

(** ** The interval over a lifetime *)

Lemma update_interval (p : WebchatUIProps) (s s' : Session) :
  update p s = Ok s' ->
  (liveIntervals (window s'), unreadTitleIndicatorInterval (instance s')) =
    if settingOf p enableUnreadMessageTitleIndicator
       && negb (settingOf (props (instance s)) enableUnreadMessageTitleIndicator)
    then
      match unreadTitleIndicatorInterval (instance s) with
      | Some h => (liveIntervals (window s), Some h)
      | None =>
          (nextHandle (window s) :: liveIntervals (window s),
           Some (nextHandle (window s)))
      end
    else (liveIntervals (window s), unreadTitleIndicatorInterval (instance s)).
Proof.
  intros H. apply update_Ok in H as (out & _ & Hu & _).
  destruct (world s') as [win' this'] eqn:Hw'.
  apply componentDidUpdate_spec in Hu.
  destruct Hu as (_ & _ & _ & _ & _ & _ & _ & _ & Hu).
  destruct (applyDerivedState_frame (setProps p (instance s)))
    as (Ap & _ & _ & Ai & _).
  unfold window, instance in *. rewrite Hw'. cbn [fst snd] in *.
  rewrite Hu, Ap. cbn [setProps props].
  destruct (settingOf p enableUnreadMessageTitleIndicator
            && negb (settingOf (props (snd (world s)))
                       enableUnreadMessageTitleIndicator)).
  - unfold initializeTitleIndicator, setInterval. rewrite Ai.
    cbn [setProps unreadTitleIndicatorInterval].
    destruct (unreadTitleIndicatorInterval (snd (world s))) eqn:Hi.
    + cbn [fst snd]. rewrite Ai. cbn [setProps unreadTitleIndicatorInterval].
      rewrite Hi. reflexivity.
    + reflexivity.
  - rewrite Ai. reflexivity.
Qed.

Lemma step_interval_kept (e : Event) (s s' : Session) (h : positive) :
  step e s = Ok s' ->
  unreadTitleIndicatorInterval (instance s) = Some h ->
  unreadTitleIndicatorInterval (instance s') = Some h.
Proof.
  assert (Hupd : forall p, update p s = Ok s' ->
            unreadTitleIndicatorInterval (instance s) = Some h ->
            unreadTitleIndicatorInterval (instance s') = Some h).
  { intros p H Hi. apply update_interval in H. rewrite Hi in H.
    destruct (settingOf p enableUnreadMessageTitleIndicator
              && negb (settingOf (props (instance s))
                         enableUnreadMessageTitleIndicator));
      injection H as _ H; exact H. }
  destruct e as [p | | k]; cbn [step]; intros H Hi; eauto.
  apply tick_spec in H as (_ & _ & _ & _ & _ & H & _). rewrite H. exact Hi.
Qed.

Lemma step_indicatorRunning (e : Event) (s s' : Session) :
  indicatorRunning (world s) -> step e s = Ok s' -> indicatorRunning (world s').
Proof.
  unfold indicatorRunning. fold (instance s) (instance s').
  assert (Hupd : forall p,
            (settingOf (props (instance s)) enableUnreadMessageTitleIndicator = true ->
             unreadTitleIndicatorInterval (instance s) <> None) ->
            update p s = Ok s' ->
            settingOf (props (instance s')) enableUnreadMessageTitleIndicator = true ->
            unreadTitleIndicatorInterval (instance s') <> None).
  { intros p Hs H Hen. pose proof (update_spec p s s' H) as (Hp & _).
    rewrite Hp in Hen. apply update_interval in H. rewrite Hen in H.
    cbn [andb] in H.
    destruct (settingOf (props (instance s)) enableUnreadMessageTitleIndicator);
      cbn [negb] in H.
    - injection H as _ H. rewrite H. auto.
    - destruct (unreadTitleIndicatorInterval (instance s));
        injection H as _ H; rewrite H; discriminate. }
  destruct e as [p | | k]; cbn [step]; intros Hs H; eauto.
  apply tick_spec in H as (Hp & _ & _ & _ & _ & Hi & _). rewrite Hp, Hi. exact Hs.
Qed.

Lemma mount_interval (p0 : WebchatUIProps) (win : Window) (s : Session) :
  mount p0 win = Ok s ->
  unreadTitleIndicatorInterval (instance s) =
    if settingOf p0 enableUnreadMessageTitleIndicator
    then Some (nextHandle win) else None.
Proof.
  intros H. apply mount_Ok in H as (out & _ & Hm & _).
  destruct (world s) as [win' this'] eqn:Hw'.
  apply componentDidMount_spec in Hm.
  destruct Hm as (_ & _ & _ & _ & _ & _ & _ & _ & Hm).
  destruct (applyDerivedState_frame (construct p0 win)) as (Ap & _ & _ & Ai & _).
  unfold instance. rewrite Hw'. cbn [fst snd] in *.
  rewrite Ap in Hm. cbn [construct props] in Hm.
  destruct (settingOf p0 enableUnreadMessageTitleIndicator).
  - unfold initializeTitleIndicator, setInterval in Hm. rewrite Ai in Hm.
    cbn in Hm. injection Hm as _ Hm. exact Hm.
  - rewrite Ai in Hm. cbn in Hm. injection Hm as _ Hm. exact Hm.
Qed.

(** X11. Whenever the props in force have
    [enableUnreadMessageTitleIndicator] set, the interval is running: set
    at mount or switched on by any later update, the instance holds a
    handle, and in a lifetime that began with no interval of the component
    live that handle is the one live interval. *)
Theorem indicator_enabled_means_running (p0 : WebchatUIProps) (win : Window)
    (es : list Event) (s : Session) :
  liveIntervals win = [] ->
  lifecycle p0 win es = Ok s ->
  settingOf (props (instance s)) enableUnreadMessageTitleIndicator = true ->
  exists h,
    unreadTitleIndicatorInterval (instance s) = Some h
    /\ liveIntervals (window s) = [h].
Proof.
  intros Hwin H Hen.
  pose proof (lifecycle_timerConsistent p0 win es s Hwin H) as Ht.
  apply lifecycle_Ok in H as (s0 & Hm & Hr).
  assert (Hrun : indicatorRunning (world s)).
  { apply (run_invariant (fun s => indicatorRunning (world s))
             step_indicatorRunning es s0 s); [| exact Hr].
    unfold indicatorRunning. fold (instance s0).
    pose proof (mount_spec p0 win s0 Hm) as (Hp & _).
    rewrite Hp, (mount_interval p0 win s0 Hm). intros ->. discriminate. }
  unfold indicatorRunning, timerConsistent in *.
  fold (instance s) (window s) in *.
  destruct (unreadTitleIndicatorInterval (instance s)) as [h |].
  - exists h. auto.
  - exfalso. apply (Hrun Hen). reflexivity.
Qed.

(** X12. Nothing but unmounting stops the interval: once the instance
    holds a handle it holds the same handle after any further updates and
    ticks, also when later props switch
    [enableUnreadMessageTitleIndicator] off, and that interval keeps
    running [toggleTitleIndicator] at every tick. *)
Theorem interval_survives_disabling (p0 : WebchatUIProps) (win : Window)
    (es es' : list Event) (s s' : Session) (h : positive) :
  liveIntervals win = [] ->
  lifecycle p0 win es = Ok s ->
  unreadTitleIndicatorInterval (instance s) = Some h ->
  run es' s = Ok s' ->
  unreadTitleIndicatorInterval (instance s') = Some h
  /\ liveIntervals (window s') = [h]
  /\ fire h (world s') = toggleTitleIndicator (world s').
Proof.
  intros Hwin H Hi Hr.
  assert (Hi' : unreadTitleIndicatorInterval (instance s') = Some h).
  { apply (run_invariant
             (fun s => unreadTitleIndicatorInterval (instance s) = Some h))
      with (es := es') (s := s); [| exact Hi | exact Hr].
    intros e s1 s2 H1 Hstep. exact (step_interval_kept e s1 s2 h Hstep H1). }
  assert (Hl : lifecycle p0 win (es ++ es') = Ok s').
  { unfold lifecycle in *. apply bind_Ok in H as (s0 & Hm & Hrun).
    rewrite Hm. cbn [bind]. rewrite run_app, Hrun. exact Hr. }
  pose proof (lifecycle_timerConsistent p0 win (es ++ es') s' Hwin Hl) as Ht.
  unfold timerConsistent in Ht. fold (instance s') (window s') in Ht.
  rewrite Hi' in Ht. split; [exact Hi' |]. split; [exact Ht |].
  unfold fire. fold (window s'). rewrite Ht. cbn [existsb].
  rewrite Pos.eqb_refl. reflexivity.
Qed.

(** ** The title over a lifetime *)

Lemma toggleTitleIndicator_wellFormed (w w' : World) :
  toggleTitleIndicator w = Ok w' -> titleWellFormed w -> titleWellFormed w'.
Proof.
  destruct w as [win this]. unfold toggleTitleIndicator, titleWellFormed.
  cbn [fst snd]. destruct (titleType this) eqn:Ht.
  - destruct (Nat.ltb_spec 0 (length (items (unseenMessages (props this)))))
      as [Hpos | Hzero].
    + destruct (settings (config (props this))) as [cfg |]; simpl;
        [| discriminate].
      intros H; injection H as <-. cbn. intros _.
      exists (length (items (unseenMessages (props this)))),
        (unreadMessageTitleText cfg). auto.
    + intros H; injection H as <-. cbn [fst snd]. rewrite Ht. auto.
  - intros H; injection H as <-. cbn. auto.
Qed.

Lemma step_titleWellFormed (e : Event) (s s' : Session) :
  titleWellFormed (world s) -> step e s = Ok s' -> titleWellFormed (world s').
Proof.
  assert (Hupd : forall p, titleWellFormed (world s) -> update p s = Ok s' ->
                           titleWellFormed (world s')).
  { intros p Hs H. apply update_spec in H as (_ & Ho & Ht & Hd & _).
    unfold titleWellFormed, instance, window in *.
    rewrite Ho, Ht, Hd. exact Hs. }
  destruct e as [p | | h]; cbn [step]; intros Hs H; eauto.
  apply bind_Ok in H as (w & Hf & H). injection H as <-. cbn [world].
  unfold fire in Hf.
  destruct (existsb (Pos.eqb h) (liveIntervals (fst (world s)))).
  - apply (toggleTitleIndicator_wellFormed _ _ Hf Hs).
  - injection Hf as <-. exact Hs.
Qed.

(** X13. The only titles the component ever leaves in the document are the
    title captured at construction and, during the [unread] phase,
    "(N) label" with N greater than zero: no lifetime reaches a state that
    shows a zero count. *)
Theorem title_is_original_or_positive_count (p0 : WebchatUIProps)
    (win : Window) (es : list Event) (s : Session) :
  lifecycle p0 win es = Ok s ->
  (titleType (instance s) = original ->
   documentTitle (window s) = documentTitle win)
  /\ (titleType (instance s) = unread ->
      exists n label,
        0 < n /\ documentTitle (window s) = unreadTitle n label).
Proof.
  intros H. destruct (lifecycle_titleConsistent p0 win es s H) as [_ Ho].
  apply lifecycle_Ok in H as (s0 & Hm & Hr).
  assert (Hwf : titleWellFormed (world s)).
  { apply (run_invariant (fun s => titleWellFormed (world s))
             step_titleWellFormed es s0 s); [| exact Hr].
    apply mount_spec in Hm as (_ & Hot & Ht & Hd & _).
    unfold titleWellFormed, instance, window in *. rewrite Ht, Hot, Hd.
    reflexivity. }
  unfold titleWellFormed, instance, window in *.
  destruct (titleType (snd (world s))).
  - split; [intros _; rewrite Hwf; exact Ho | discriminate].
  - split; [discriminate | intros _; exact Hwf].
Qed.

(** ** The resolved plugin lists in the output *)

Lemma render_plugins_handed (this : WebchatUI) (out : option VNode) :
  render this = Ok out ->
  Forall (eq (stMessagePlugins (state this)))
    (messagePluginsHanded (outElements out))
  /\ Forall (eq (stInputPlugins (state this)))
      (inputPluginsHanded (outElements out)).
Proof.
  intros Hr.
  read_render this out Hr cfg Hcfg Ha; [| split; constructor].
  rewrite elements_renderHistory.
  unfold messagePluginsHanded, inputPluginsHanded.
  assert (Hall : Forall (eq (stMessagePlugins (state this)))
                   (map (fun _ : IMessage => stMessagePlugins (state this))
                      (messages (props this)))).
  { induction (messages (props this)); constructor; auto. }
  render_flags this cfg; cbn [app flat_map];
    rewrite ?flat_map_app;
    repeat match goal with
      | |- context [flat_map ?f (map ?g ?l)] =>
          first
            [ rewrite (flat_map_no_renderer f) by reflexivity
            | change (flat_map f (map g l)) with (messagePluginsHanded (map g l));
              rewrite messagePluginsHanded_map ]
      end;
    cbn [flat_map app]; rewrite ?app_nil_r;
    split; repeat (apply Forall_app; split);
    repeat constructor; try exact Hall.
Qed.

Lemma step_plugins (e : Event) (s s' : Session) :
  step e s = Ok s' ->
  stMessagePlugins (state (instance s')) = stMessagePlugins (state (instance s))
  /\ stInputPlugins (state (instance s')) = stInputPlugins (state (instance s)).
Proof.
  destruct e as [p | | h]; cbn [step]; intros H.
  - apply update_spec in H. tauto.
  - apply update_spec in H. tauto.
  - apply tick_spec in H as (_ & -> & _). auto.
Qed.

(** X14. The first render of a lifetime comes before [componentDidMount]
    and hands every message renderer, the fullscreen view and the input an
    empty plugin list; every later render hands them the lists resolved at
    mount: the host plugins of the mount props followed by the built-in
    default. *)
Theorem plugin_lists_handed_to_renderers (p0 : WebchatUIProps) (win : Window)
    (es : list Event) (s : Session) :
  lifecycle p0 win es = Ok s ->
  exists first later,
    outputs s = later ++ [first]
    /\ Forall (eq []) (messagePluginsHanded (outElements first))
    /\ Forall (eq []) (inputPluginsHanded (outElements first))
    /\ Forall
         (fun out =>
            Forall (eq (hostMessagePlugins p0 ++ [regularMessagePlugin]))
              (messagePluginsHanded (outElements out))
            /\ Forall (eq (inputPlugins p0 ++ [textInputPlugin]))
                (inputPluginsHanded (outElements out)))
         later.
Proof.
  intros H. apply lifecycle_Ok in H as (s0 & Hm & Hr).
  pose proof (mount_spec p0 win s0 Hm)
    as (_ & _ & _ & _ & Hmp & Hip & _ & _ & _ & (first & Hout & Hrender)).
  exists first.
  set (good := fun out : option VNode =>
         Forall (eq (hostMessagePlugins p0 ++ [regularMessagePlugin]))
           (messagePluginsHanded (outElements out))
         /\ Forall (eq (inputPlugins p0 ++ [textInputPlugin]))
             (inputPluginsHanded (outElements out))).
  assert (Hinv : stMessagePlugins (state (instance s)) =
                   hostMessagePlugins p0 ++ [regularMessagePlugin]
                 /\ stInputPlugins (state (instance s)) =
                   inputPlugins p0 ++ [textInputPlugin]
                 /\ exists later, outputs s = later ++ [first] /\ Forall good later).
  { apply (run_invariant
             (fun s => stMessagePlugins (state (instance s)) =
                         hostMessagePlugins p0 ++ [regularMessagePlugin]
                       /\ stInputPlugins (state (instance s)) =
                         inputPlugins p0 ++ [textInputPlugin]
                       /\ exists later,
                            outputs s = later ++ [first] /\ Forall good later))
      with (es := es) (s := s0); [| | exact Hr].
    - intros e s1 s2 (Hm1 & Hi1 & later & Ho1 & Hgood) Hstep.
      destruct (step_plugins e s1 s2 Hstep) as [Hm2 Hi2].
      rewrite Hm2, Hi2. split; [exact Hm1 |]. split; [exact Hi1 |].
      assert (Hupd : forall p, update p s1 = Ok s2 ->
                exists later', outputs s2 = later' ++ [first]
                               /\ Forall good later').
      { intros p Hu. apply update_Ok in Hu as (out & Hrd & _ & _ & Ho2).
        exists (out :: later). rewrite Ho2, Ho1. split; [reflexivity |].
        constructor; [| exact Hgood].
        destruct (render_plugins_handed _ out Hrd) as [Hpm Hpi].
        destruct (applyDerivedState_frame (setProps p (instance s1)))
          as (_ & _ & _ & _ & Am & Ai & _).
        rewrite Am in Hpm. rewrite Ai in Hpi.
        cbn [setProps state] in Hpm, Hpi. rewrite Hm1 in Hpm. rewrite Hi1 in Hpi.
        split; assumption. }
      destruct e as [p | | h]; cbn [step] in Hstep; eauto.
      apply tick_spec in Hstep as (_ & _ & _ & Ho2 & _).
      exists later. rewrite Ho2. auto.
    - split; [exact Hmp |]. split; [exact Hip |].
      exists []. rewrite Hout. split; [reflexivity | constructor]. }
  destruct Hinv as (_ & _ & later & Ho & Hgood).
  exists later. split; [exact Ho |].
  destruct (render_plugins_handed _ first Hrender) as [Hpm Hpi].
  destruct (applyDerivedState_frame (construct p0 win))
    as (_ & _ & _ & _ & Am & Ai & _).
  rewrite Am in Hpm. rewrite Ai in Hpi. cbn in Hpm, Hpi.
  split; [exact Hpm |]. split; [exact Hpi | exact Hgood].
Qed.

(** ** A lifetime with every feature off *)

Lemma run_invariant_when (ok : Event -> bool) (P : Session -> Prop) :
  (forall e s s', ok e = true -> P s -> step e s = Ok s' -> P s') ->
  forall es s s',
    forallb ok es = true -> P s -> run es s = Ok s' -> P s'.
Proof.
  intros Hstep es. induction es as [| e es IH]; intros s s' Hes Hs H;
    simpl in H.
  - injection H as <-. exact Hs.
  - apply bind_Ok in H as (s1 & H1 & H).
    cbn [forallb] in Hes. apply andb_prop in Hes as [He Hes]. eauto.
Qed.

Lemma featuresOff_settings (p : WebchatUIProps) :
  featuresOff p = true ->
  hasSettings p = true
  /\ settingOf p enableConnectionStatusIndicator = false
  /\ settingOf p enableUnreadMessageTitleIndicator = false
  /\ settingOf p enableUnreadMessagePreview = false
  /\ settingOf p enableUnreadMessageSound = false
  /\ settingOf p enableUnreadMessageBadge = false.
Proof.
  unfold featuresOff, hasSettings, settingOf.
  destruct (settings (config p)) as [cfg |]; [| discriminate].
  destruct (truthy (enableConnectionStatusIndicator cfg)),
    (truthy (enableUnreadMessageTitleIndicator cfg)),
    (truthy (enableUnreadMessagePreview cfg)),
    (truthy (enableUnreadMessageSound cfg)),
    (truthy (enableUnreadMessageBadge cfg)); cbn; intros H;
    try discriminate H; repeat split; reflexivity.
Qed.

Lemma render_quiet (this : WebchatUI) (out : option VNode) :
  render this = Ok out ->
  featuresOff (props this) = true ->
  lastUnseenMessageText (state this) = EmptyString ->
  quietOutput out.
Proof.
  intros Hr Hoff Htext. unfold quietOutput, featuresOff in *.
  read_render this out Hr cfg Hcfg Ha; [| repeat split; reflexivity].
  rewrite Hcfg in Hoff. rewrite elements_renderHistory, Htext.
  destruct (truthy (enableConnectionStatusIndicator cfg)),
    (truthy (enableUnreadMessageBadge cfg)),
    (truthy (enableUnreadMessageTitleIndicator cfg)),
    (truthy (enableUnreadMessagePreview cfg)),
    (truthy (enableUnreadMessageSound cfg)); try discriminate Hoff.
  cbn [andb truthyStr].
  destruct (open (props this)), (fullscreenMessage (props this)),
    (truthy (disableToggleButton cfg)),
    (typingIndicator (props this) =? "remove")%string;
    read_tags; repeat split; reflexivity.
Qed.

Lemma forallb_featuresOff_hasSettings (es : list Event) :
  forallb eventFeaturesOff es = true -> forallb eventHasSettings es = true.
Proof.
  induction es as [| e es IH]; cbn [forallb]; [reflexivity |].
  intros H. apply andb_prop in H as [He Hes]. rewrite (IH Hes), andb_true_r.
  destruct e as [p | | h]; try reflexivity.
  apply featuresOff_settings in He. tauto.
Qed.

Lemma step_quietSession (win : Window) (e : Event) (s s' : Session) :
  eventFeaturesOff e = true -> quietSession win s -> step e s = Ok s' ->
  quietSession win s'.
Proof.
  intros He (Hoff & Hi & Hl & Hd & Hsnd & Htext & Hout) Hstep.
  assert (Hupd : forall p, featuresOff p = true -> update p s = Ok s' ->
                           quietSession win s').
  { intros p Hp Hu.
    destruct (featuresOff_settings p Hp) as (_ & _ & Hti & Hpv & Hso & _).
    pose proof (update_spec p s s' Hu)
      as (Hp' & _ & _ & Hd' & _ & _ & _ & _ & Hl').
    pose proof (update_interval p s s' Hu) as Hint.
    pose proof (step_soundsPlayed (SetProps p) s s' Hu) as Hs'.
    rewrite Hti in Hint. cbn [andb] in Hint. injection Hint as Hlive Hint.
    unfold playsSound in Hs'. rewrite Hso, andb_false_r in Hs'.
    rewrite Hpv, andb_false_r in Hl'.
    unfold quietSession.
    rewrite Hp', Hint, Hlive, Hd', Hs', Hl'.
    repeat split; try assumption; try lia.
    apply update_Ok in Hu as (out & Hrd & _ & _ & Ho).
    rewrite Ho. constructor; [| exact Hout].
    destruct (applyDerivedState_frame (setProps p (instance s)))
      as (Ap & _ & _ & _ & _ & _ & _ & Al).
    apply (render_quiet _ out Hrd).
    - rewrite Ap. exact Hp.
    - rewrite Al. exact Htext. }
  destruct e as [p | | h]; cbn [step eventFeaturesOff] in *; eauto.
  apply bind_Ok in Hstep as (w & Hf & Hstep). injection Hstep as <-.
  unfold fire in Hf. fold (window s) in Hf. rewrite Hl in Hf.
  cbn [existsb] in Hf. injection Hf as <-.
  unfold quietSession, instance, window in *. cbn [world outputs].
  repeat split; assumption.
Qed.

(** X15. A lifetime in which every props object has a settings block that
    enables nothing never raises and is quiet throughout: no interval is
    started, the document title is never written, no sound is played, the
    preview text stays empty, and no render shows the disconnect overlay,
    the teaser or the badge. *)
Theorem features_off_lifetime_is_quiet (p0 : WebchatUIProps) (win : Window)
    (es : list Event) :
  liveIntervals win = [] ->
  featuresOff p0 = true ->
  forallb eventFeaturesOff es = true ->
  exists s,
    lifecycle p0 win es = Ok s
    /\ unreadTitleIndicatorInterval (instance s) = None
    /\ liveIntervals (window s) = []
    /\ documentTitle (window s) = documentTitle win
    /\ soundsPlayed (window s) = soundsPlayed win
    /\ lastUnseenMessageText (state (instance s)) = EmptyString
    /\ Forall quietOutput (outputs s).
Proof.
  intros Hwin Hoff Hes.
  destruct (featuresOff_settings p0 Hoff) as (Hset & _ & Hti & _).
  destruct (lifecycle_total p0 win es Hset
              (forallb_featuresOff_hasSettings es Hes)) as [s H].
  exists s. split; [exact H |].
  apply lifecycle_Ok in H as (s0 & Hm & Hr).
  assert (H0 : quietSession win s0).
  { pose proof (mount_spec p0 win s0 Hm)
      as (Hp & _ & _ & Hd & _ & _ & _ & _ & Hl & (out & Hout & Hrender)).
    pose proof (mount_interval p0 win s0 Hm) as Hi. rewrite Hti in Hi.
    assert (Hlc : lifecycle p0 win [] = Ok s0).
    { unfold lifecycle. rewrite Hm. reflexivity. }
    pose proof (lifecycle_timerConsistent p0 win [] s0 Hwin Hlc) as Ht.
    unfold timerConsistent in Ht. fold (instance s0) (window s0) in Ht.
    rewrite Hi in Ht.
    unfold quietSession. rewrite Hp, Hout.
    repeat split; try assumption.
    - exact (mount_soundsPlayed p0 win s0 Hm).
    - constructor; [| constructor].
      destruct (applyDerivedState_frame (construct p0 win))
        as (Ap & _ & _ & _ & _ & _ & _ & Al).
      apply (render_quiet _ out Hrender).
      + rewrite Ap. exact Hoff.
      + rewrite Al. reflexivity. }
  pose proof (run_invariant_when eventFeaturesOff (quietSession win)
                (step_quietSession win) es s0 s Hes H0 Hr)
    as (_ & Hq).
  exact Hq.
Qed.

(** ** Sending *)

(** X16. [sendMessage] hands every message to the host callback, once and
    with its arguments, in the order of the calls and whether or not the
    history is mounted; it scrolls the history to the bottom once for each
    call made while the history is mounted. *)
Theorem sendMessage_delivers_in_order {Args : Type}
    (calls : list (bool * Args)) (log : SendLog Args) :
  sent (sendAll calls log) = rev (map snd calls) ++ sent log
  /\ scrolls (sendAll calls log) =
      scrolls log + length (filter fst calls).
Proof.
  revert log. induction calls as [| [historyCurrent args] calls IH];
    intros log; cbn [sendAll map rev filter fst snd].
  - cbn. split; [reflexivity | lia].
  - destruct (IH (sendMessage historyCurrent args log)) as [Hs Hc].
    rewrite Hs, Hc. unfold sendMessage.
    destruct historyCurrent; cbn; rewrite <- app_assoc; cbn;
      split; try reflexivity; lia.
Qed.

End Further.

(** * The further properties on explicit inputs *)

Lemma history_renders_messages_in_order_witness :
  exists out,
    render offlineInstance = Ok out
    /\ renderedMessages (outElements out) = ["Hi"; "How can I help?"]%string.
Proof.
  destruct (render offlineInstance) as [out | e] eqn:H;
    [| vm_compute in H; discriminate H].
  exists out. split; [reflexivity |].
  exact (history_renders_messages_in_order offlineInstance out H).
Defined.

Lemma toggle_button_and_icons_witness :
  exists out,
    render closedOfflineInstance = Ok out
    /\ hasTag TFAB (outElements out) = true
    /\ hasTag TCloseIcon (outElements out) = false
    /\ hasTag TChatIcon (outElements out) = true.
Proof.
  destruct (render closedOfflineInstance) as [out | e] eqn:H;
    [| vm_compute in H; discriminate H].
  exists out. split; [reflexivity |].
  exact (toggle_button_and_icons closedOfflineInstance out H).
Defined.

Lemma closed_widget_renders_no_panel_witness :
  exists out,
    render closedOfflineInstance = Ok out
    /\ hasTag TWebchatRoot (outElements out) = false
    /\ hasTag TDisconnectOverlay (outElements out) = false.
Proof.
  destruct (render closedOfflineInstance) as [out | e] eqn:H;
    [| vm_compute in H; discriminate H].
  exists out. split; [reflexivity |].
  destruct (closed_widget_renders_no_panel closedOfflineInstance out H)
    as [Hroot Hpanel].
  split; [exact Hroot |].
  apply (Hpanel eq_refl). cbn. tauto.
Defined.

Lemma badge_shows_unseen_count_witness :
  exists out,
    render offlineInstance = Ok out /\ badgeContents (outElements out) = [0].
Proof.
  destruct (render offlineInstance) as [out | e] eqn:H;
    [| vm_compute in H; discriminate H].
  exists out. split; [reflexivity |].
  exact (badge_shows_unseen_count offlineInstance out H).
Defined.

Lemma typing_indicator_row_witness :
  exists out,
    render offlineInstance = Ok out
    /\ messageRowsHidden (outElements out) = [true].
Proof.
  destruct (render offlineInstance) as [out | e] eqn:H;
    [| vm_compute in H; discriminate H].
  exists out. split; [reflexivity |].
  exact (typing_indicator_row offlineInstance out H).
Defined.

Lemma header_title_and_connected_witness :
  exists out,
    render offlineInstance = Ok out
    /\ connected (props offlineInstance) = false
    /\ In (true, "Support"%string) (headerProps (outElements out))
    /\ "Support"%string <> EmptyString.
Proof.
  destruct (render offlineInstance) as [out | e] eqn:H;
    [| vm_compute in H; discriminate H].
  exists out. split; [reflexivity |]. split; [reflexivity |].
  assert (Hin : In (true, "Support"%string) (headerProps (outElements out))).
  { vm_compute in H. injection H as <-. cbn. auto. }
  split; [exact Hin |].
  exact (proj1 (proj2 (header_title_and_connected offlineInstance out true
                         "Support"%string H Hin))).
Defined.

Lemma rendered_theme_follows_colorScheme_witness :
  exists out,
    render (applyDerivedState offlineInstance) = Ok out
    /\ primaryColor (theme (state (applyDerivedState offlineInstance)))
       = "#ff0000"%string
    /\ themesProvided (outElements out)
       = [theme (state (applyDerivedState offlineInstance))].
Proof.
  destruct (render (applyDerivedState offlineInstance)) as [out | e] eqn:H;
    [| vm_compute in H; discriminate H].
  exists out. split; [reflexivity |].
  apply (rendered_theme_follows_colorScheme offlineInstance allFeatures
           "#ff0000"%string out).
  - intros c'. reflexivity.
  - reflexivity.
  - reflexivity.
  - discriminate.
  - exact H.
Defined.

Lemma derived_state_is_stable_witness :
  applyDerivedState (applyDerivedState offlineInstance)
  = applyDerivedState offlineInstance.
Proof.
  destruct (derived_state_is_stable offlineInstance) as [_ Hstable].
  apply Hstable. intros c. reflexivity.
Defined.

Lemma sound_once_per_unseen_update_witness :
  exists s,
    lifecycle propsOnline demoWindow
      [SetProps propsOnlineThree; Rerender; Tick 1; SetProps propsOnlineHello]
    = Ok s
    /\ soundsPlayed (window s) = 2.
Proof.
  destruct (lifecycle propsOnline demoWindow
              [SetProps propsOnlineThree; Rerender; Tick 1;
               SetProps propsOnlineHello]) as [s | e] eqn:H;
    [| vm_compute in H; discriminate H].
  exists s. split; [reflexivity |].
  exact (sound_once_per_unseen_update _ _ _ _ H).
Defined.

Lemma unseen_at_mount_needs_new_array_witness :
  exists s,
    lifecycle propsOnlineThree demoWindow
      [Rerender; Tick 1; SetProps propsOnlineThree] = Ok s
    /\ lastUnseenMessageText (state (instance s)) = EmptyString
    /\ soundsPlayed (window s) = 0.
Proof.
  destruct (lifecycle propsOnlineThree demoWindow
              [Rerender; Tick 1; SetProps propsOnlineThree]) as [s | e] eqn:H;
    [| vm_compute in H; discriminate H].
  exists s. split; [reflexivity |].
  exact (unseen_at_mount_needs_new_array propsOnlineThree demoWindow
           [Rerender; Tick 1; SetProps propsOnlineThree] s H eq_refl).
Defined.

Lemma indicator_enabled_means_running_witness :
  exists s h,
    lifecycle propsPlain demoWindow [SetProps propsOnline] = Ok s
    /\ unreadTitleIndicatorInterval (instance s) = Some h
    /\ liveIntervals (window s) = [h].
Proof.
  destruct (lifecycle propsPlain demoWindow [SetProps propsOnline])
    as [s | e] eqn:H; [| vm_compute in H; discriminate H].
  assert (Hen : settingOf (props (instance s))
                  enableUnreadMessageTitleIndicator = true).
  { vm_compute in H. injection H as <-. reflexivity. }
  destruct (indicator_enabled_means_running propsPlain demoWindow
              [SetProps propsOnline] s eq_refl H Hen) as (h & Hi & Hl).
  exists s, h. repeat split; assumption.
Defined.

Lemma interval_survives_disabling_witness :
  exists s s',
    lifecycle propsOnline demoWindow [] = Ok s
    /\ run [SetProps propsPlain; Rerender] s = Ok s'
    /\ settingOf (props (instance s')) enableUnreadMessageTitleIndicator = false
    /\ unreadTitleIndicatorInterval (instance s') = Some 1%positive
    /\ liveIntervals (window s') = [1%positive].
Proof.
  destruct (lifecycle propsOnline demoWindow []) as [s | e] eqn:H;
    [| vm_compute in H; discriminate H].
  destruct (run [SetProps propsPlain; Rerender] s) as [s' | e] eqn:H';
    [| vm_compute in H; injection H as <-; vm_compute in H'; discriminate H'].
  assert (Hi : unreadTitleIndicatorInterval (instance s) = Some 1%positive).
  { vm_compute in H. injection H as <-. reflexivity. }
  assert (Hoff : settingOf (props (instance s'))
                   enableUnreadMessageTitleIndicator = false).
  { vm_compute in H. injection H as <-. vm_compute in H'. injection H' as <-.
    reflexivity. }
  destruct (interval_survives_disabling propsOnline demoWindow []
              [SetProps propsPlain; Rerender] s s' 1%positive eq_refl H Hi H')
    as (Hi' & Hl & _).
  exists s, s'. repeat split; assumption.
Defined.

Lemma title_is_original_or_positive_count_witness :
  exists s n label,
    lifecycle propsOnlineThree demoWindow [Tick 1; SetProps propsOnline] = Ok s
    /\ 0 < n
    /\ documentTitle (window s) = unreadTitle n label.
Proof.
  destruct (lifecycle propsOnlineThree demoWindow [Tick 1; SetProps propsOnline])
    as [s | e] eqn:H; [| vm_compute in H; discriminate H].
  assert (Hu : titleType (instance s) = unread).
  { vm_compute in H. injection H as <-. reflexivity. }
  destruct (title_is_original_or_positive_count _ _ _ _ H) as [_ Hunread].
  destruct (Hunread Hu) as (n & label & Hn & Hd).
  exists s, n, label. repeat split; assumption.
Defined.

Lemma plugin_lists_handed_to_renderers_witness :
  exists s first later,
    lifecycle propsOnline demoWindow [Rerender; SetProps propsOtherPlugins] = Ok s
    /\ outputs s = later ++ [first]
    /\ Forall (eq []) (messagePluginsHanded (outElements first))
    /\ Forall
         (fun out =>
            Forall (eq (hostMessagePlugins propsOnline ++ [regularMessagePlugin]))
              (messagePluginsHanded (outElements out))
            /\ Forall (eq (inputPlugins propsOnline ++ [textInputPlugin]))
                (inputPluginsHanded (outElements out)))
         later.
Proof.
  destruct (lifecycle propsOnline demoWindow
              [Rerender; SetProps propsOtherPlugins]) as [s | e] eqn:H;
    [| vm_compute in H; discriminate H].
  destruct (plugin_lists_handed_to_renderers _ _ _ _ H)
    as (first & later & Ho & Hm & _ & Hlater).
  exists s, first, later. repeat split; assumption.
Defined.

Lemma features_off_lifetime_is_quiet_witness :
  exists s,
    lifecycle propsPlain demoWindow [Rerender; Tick 1; SetProps propsPlain] = Ok s
    /\ liveIntervals (window s) = []
    /\ documentTitle (window s) = "Shop"%string
    /\ soundsPlayed (window s) = 0.
Proof.
  destruct (features_off_lifetime_is_quiet propsPlain demoWindow
              [Rerender; Tick 1; SetProps propsPlain] eq_refl eq_refl eq_refl)
    as (s & H & _ & Hl & Hd & Hs & _).
  exists s. repeat split; assumption.
Defined.
